(** * Economic Dashboard: the series generator, the risk classifier, the
      country list and the data loops of the render pass of
      [simplified-dashboard.py]

    The Python functions are embedded as Rocq functions of the same name.
    - Python exceptions are values of [exn]; a computation that may raise
      returns a [result].
    - Python's [float] is abstracted by the class [PyFloat], which has exactly
      the operations the program applies to floats.  Two instances are given:
      [float_PyFloat], IEEE binary64 as the interpreter computes it, and
      [Q_PyFloat], the same program over exact rational arithmetic.  Whatever is
      proved for every instance holds for both.
    - [numpy.random] is abstracted by the class [RandomSource]: a draw is a
      function of the generator state that returns the value and the new
      state. *)

From Stdlib Require Import ZArith QArith Qpower String Ascii List Lia Lqa.
From Stdlib Require Import PrimFloat Uint63.
From stdpp Require Import base option list gmap strings.

Set Default Proof Using "Type".
Local Open Scope string_scope.
Local Open Scope list_scope.

(** ** Exceptions *)

Inductive exn : Type :=
  | OverflowError        (* float ** int out of the double range *)
  | IndexError           (* sequence index out of range *)
  | KeyError             (* missing dict key *)
  | TypeError            (* subscripting or iterating the wrong kind of value *)
  | ValueError           (* DataFrame columns of different lengths *)
  | RequestException     (* requests.get failed *)
  | JSONDecodeError.     (* response.json() failed *)

Inductive result (A : Type) : Type :=
  | Ok (a : A)
  | Raise (e : exn).
Arguments Ok {A} a.
Arguments Raise {A} e.

#[global] Instance result_ret : MRet result := fun A a => Ok a.
#[global] Instance result_bind : MBind result := fun A B f m =>
  match m with
  | Ok a => f a
  | Raise e => Raise e
  end.

Definition is_Ok {A} (r : result A) : bool :=
  match r with Ok _ => true | Raise _ => false end.

(** [[f(x) for x in l]] where [f] may raise: the first exception ends the
    comprehension. *)
Fixpoint traverse {A B} (f : A -> result B) (l : list A) : result (list B) :=
  match l with
  | [] => Ok []
  | x :: l' => y ← f x; ys ← traverse f l'; Ok (y :: ys)
  end.

(** [for x in l: acc = body(acc, x)] where the body may raise. *)
Fixpoint for_each {A S} (body : S -> A -> result S) (l : list A) (acc : S) : result S :=
  match l with
  | [] => Ok acc
  | x :: l' => acc' ← body acc x; for_each body l' acc'
  end.

(** [l[i]] for a non-negative index. *)
Definition getitem {A} (l : list A) (i : nat) : result A :=
  match l !! i with
  | Some x => Ok x
  | None => Raise IndexError
  end.

(** [enumerate(l)]: the counter is a Python int that starts at 0. *)
Fixpoint enumerate_from {A} (k : N) (l : list A) : list (N * A) :=
  match l with
  | [] => []
  | x :: l' => (k, x) :: enumerate_from (N.succ k) l'
  end.

Definition enumerate {A} (l : list A) : list (N * A) := enumerate_from 0%N l.

(** [list(range(lo, hi))]: [lo], [lo + 1], ... up to but not including [hi];
    empty when [hi <= lo]. *)
Fixpoint range_from (lo : Z) (n : nat) : list Z :=
  match n with
  | O => []
  | S n' => lo :: range_from (lo + 1)%Z n'
  end.

Definition range (lo hi : Z) : list Z := range_from lo (Z.to_nat (hi - lo)).

(** ** Strings: the [in] operator *)

(** [starts_with p s]: [s.startswith(p)] *)
Fixpoint starts_with (p s : string) : bool :=
  match p, s with
  | EmptyString, _ => true
  | String _ _, EmptyString => false
  | String a p', String b s' => if Ascii.eqb a b then starts_with p' s' else false
  end.

(** [str_in needle hay]: [needle in hay], an exact (case-sensitive) substring
    test. *)
Fixpoint str_in (needle hay : string) : bool :=
  starts_with needle hay ||
  match hay with
  | EmptyString => false
  | String _ hay' => str_in needle hay'
  end.

(** What [in] decides: [hay] is [pre ++ needle ++ post] for some [pre], [post]. *)
Definition Substring (needle hay : string) : Prop :=
  exists pre post : string, hay = String.append pre (String.append needle post).

(** ** Floats *)

(** The operations the program applies to a Python float.  [flit q] is the
    float denoted by the decimal literal (or the int constant) [q]; [fpow x i]
    is [x ** i] for an int [i >= 0] (the counter of [enumerate]), which raises
    [OverflowError] when the power leaves the range of a double; [fgeb x y] is
    [x >= y].  Addition and multiplication never raise in Python. *)
Class PyFloat (F : Type) : Type := {
  flit : Q -> F;
  fadd : F -> F -> F;
  fmul : F -> F -> F;
  fpow : F -> N -> result F;
  fgeb : F -> F -> bool
}.

(** *** IEEE binary64 *)

Definition float_of_Z (z : Z) : float :=
  match z with
  | Z0 => PrimFloat.zero
  | Zpos p => PrimFloat.of_uint63 (Uint63.of_Z (Zpos p))
  | Zneg p => PrimFloat.opp (PrimFloat.of_uint63 (Uint63.of_Z (Zpos p)))
  end.

(** A decimal literal [n/d] with [n] and [d] below [2^53]: both are doubles,
    and the correctly rounded quotient is the double nearest to the literal,
    which is what the Python parser produces. *)
Definition float_lit (q : Q) : float :=
  PrimFloat.div (float_of_Z (Qnum q)) (float_of_Z (Zpos (Qden q))).

(** [x ** p] for [p >= 1] by square and multiply, every product rounded. *)
Fixpoint float_pow_pos (x : float) (p : positive) : float :=
  match p with
  | xH => x
  | xO p' => let y := float_pow_pos x p' in PrimFloat.mul y y
  | xI p' => let y := float_pow_pos x p' in PrimFloat.mul x (PrimFloat.mul y y)
  end.

(** CPython's [float_pow]: [x ** 0] is [1.0]; otherwise the C library's [pow],
    and [OverflowError] when a finite base gives an infinite power.  The C
    library rounds the exact power once; the products here round at every
    step, so the last digits can differ, but not whether the power is
    representable for the exponents used below. *)
Definition float_pow (x : float) (i : N) : result float :=
  match i with
  | N0 => Ok PrimFloat.one
  | Npos p =>
      let y := float_pow_pos x p in
      if PrimFloat.is_finite x && PrimFloat.is_infinity y
      then Raise OverflowError else Ok y
  end.

#[global] Instance float_PyFloat : PyFloat float := {
  flit := float_lit;
  fadd := PrimFloat.add;
  fmul := PrimFloat.mul;
  fpow := float_pow;
  fgeb := fun x y => PrimFloat.leb y x
}.

(** *** Exact rational arithmetic *)

#[global] Instance Q_PyFloat : PyFloat Q := {
  flit := fun q => q;
  fadd := Qplus;
  fmul := Qmult;
  fpow := fun x i => Ok (Qpower x (Z.of_N i));
  fgeb := fun x y => Qle_bool y x
}.

(** ** The random source *)

(** [normal loc scale] is [np.random.normal(loc, scale)] and [uniform low high]
    is [np.random.uniform(low, high)]: each consumes the generator state [G]
    and returns the drawn value with the next state. *)
Class RandomSource (F G : Type) : Type := {
  normal : F -> F -> G -> F * G;
  uniform : F -> F -> G -> F * G
}.

(** [[draw() for _ in l]]: one draw per element, left to right. *)
Fixpoint draws {F G A} (draw : G -> F * G) (l : list A) (g : G) : list F * G :=
  match l with
  | [] => ([], g)
  | _ :: l' =>
      let '(x, g1) := draw g in
      let '(xs, g2) := draws draw l' g1 in
      (x :: xs, g2)
  end.

(** ** Data frames *)

(** [pd.DataFrame({'year': ..., 'value': ...})]: two columns. *)
Record DataFrame (F : Type) : Type := mkDataFrame {
  year : list Z;
  value : list F
}.
Arguments mkDataFrame {F} year value.
Arguments year {F} d.
Arguments value {F} d.

(** The constructor refuses columns of different lengths. *)
Definition make_frame {F} (years : list Z) (values : list F) : result (DataFrame F) :=
  if decide (length years = length values)
  then Ok (mkDataFrame years values)
  else Raise ValueError.

(** The rows of a frame: its (year, value) points. *)
Definition points {F} (d : DataFrame F) : list (Z * F) := zip (year d) (value d).

(** ** The program *)

Section Dashboard.
Context {F G : Type} `{PyFloat F} `{RandomSource F G}.

(** The smoothing statement [values[i] = 0.7 * values[i-1] + 0.3 * values[i]]. *)
Definition smooth_at (values : list F) (i : nat) : result (list F) :=
  prev ← getitem values (i - 1);
  cur ← getitem values i;
  Ok (<[i := fadd (fmul (flit 0.7) prev) (fmul (flit 0.3) cur)]> values).

(** [for i in range(1, len(values)): ...] *)
Definition smooth (values : list F) : result (list F) :=
  for_each smooth_at (seq 1 (length values - 1)) values.

(** The third generation rule:
    [[base * (1 + 0.03) ** i for i, _ in enumerate(years)]]. *)
Definition level_values (base : F) (years : list Z) : result (list F) :=
  traverse (fun '(i, _) => p ← fpow (fadd (flit 1) (flit 0.03)) i; Ok (fmul base p))
           (enumerate years).

(** The [if]/[elif]/[else] that builds the raw values. *)
Definition raw_values (indicator : string) (years : list Z) (g : G)
  : result (list F * G) :=
  if str_in "GDP" indicator && str_in "growth" indicator then
    Ok (draws (normal (flit 3) (flit 1)) years g)
  else if str_in "Inflation" indicator then
    Ok (draws (normal (flit 2.5) (flit 0.8)) years g)
  else
    let base := if str_in "GDP" indicator then flit 1.0 else flit 200.0 in
    values ← level_values base years;
    Ok (values, g).

Definition get_sample_data (indicator : string) (start_year end_year : Z) (g : G)
  : result (DataFrame F * G) :=
  let years := range start_year (end_year + 1) in
  '(values, g') ← raw_values indicator years g;
  values' ← smooth values;
  d ← make_frame years values';
  Ok (d, g').

Definition calculate_risk_score (indicators_data : gmap string (DataFrame F)) (g : G)
  : F * G :=
  uniform (flit 2) (flit 8) g.

Definition risk_analysis (score : F) : string * string :=
  if fgeb score (flit 7) then ("High Risk", "risk-high")
  else if fgeb score (flit 4) then ("Medium Risk", "risk-medium")
  else ("Low Risk", "risk-low").

Definition generate_outlook (score : F) : string :=
  if fgeb score (flit 7) then
    "Economic conditions face significant headwinds. Policy intervention may be needed to stabilize growth and inflation."
  else if fgeb score (flit 4) then
    "Economic conditions show mixed signals with moderate risks. Careful monitoring recommended."
  else
    "Economic conditions appear favorable with positive outlook for sustained growth and stability.".

(** The classification the dashboard shows: label, style tag and outlook. *)
Definition classify (score : F) : string * string * string :=
  (risk_analysis score, generate_outlook score).

End Dashboard.

(** ** The country list *)

(** What [response.json()] returns.  A dict is the list of its items in
    insertion order. *)
#[warnings="-register-all"]
Inductive json : Type :=
  | JNull
  | JBool (b : bool)
  | JNum (q : Q)
  | JStr (s : string)
  | JList (l : list json)
  | JDict (items : list (string * json)).

(** The characters of a string, each as a one-character string. *)
Fixpoint chars (s : string) : list json :=
  match s with
  | EmptyString => []
  | String a s' => JStr (String a EmptyString) :: chars s'
  end.

(** [d[k]] on the items of a dict: the value stored under [k]. *)
Fixpoint dict_get (items : list (string * json)) (k : string) : result json :=
  match items with
  | [] => Raise KeyError
  | (k', v) :: items' => if String.eqb k' k then Ok v else dict_get items' k
  end.

(** [v[i]] for an int [i >= 0].  The keys of a JSON dict are strings, so an
    int is never one of them. *)
Definition subscript_int (v : json) (i : nat) : result json :=
  match v with
  | JList l => getitem l i
  | JStr s => getitem (chars s) i
  | JDict _ => Raise KeyError
  | JNull | JBool _ | JNum _ => Raise TypeError
  end.

(** [v[k]] for a string [k]: only a dict can be indexed by a string. *)
Definition subscript_str (v : json) (k : string) : result json :=
  match v with
  | JDict items => dict_get items k
  | JNull | JBool _ | JNum _ | JStr _ | JList _ => Raise TypeError
  end.

(** [for x in v]: the elements of a list, the characters of a string, the keys
    of a dict; nothing else is iterable. *)
Definition iterate (v : json) : result (list json) :=
  match v with
  | JList l => Ok l
  | JStr s => Ok (chars s)
  | JDict items => Ok (map (fun '(k, _) => JStr k) items)
  | JNull | JBool _ | JNum _ => Raise TypeError
  end.

(** [v != s] for a string [s]. *)
Definition neq_str (v : json) (s : string) : bool :=
  match v with
  | JStr s' => negb (String.eqb s' s)
  | _ => true
  end.

(** A row of the country frame; the three cells hold whatever the payload had
    there. *)
Record country_row : Type := mkCountry {
  c_id : json;
  c_name : json;
  c_region : json
}.

(** The body of the loop [for country in data[1]]. *)
Definition add_country (countries : list country_row) (country : json)
  : result (list country_row) :=
  region ← subscript_str country "region";
  region_value ← subscript_str region "value";
  if neq_str region_value "Aggregates" then
    id ← subscript_str country "id";
    name ← subscript_str country "name";
    region' ← subscript_str country "region";
    region_value' ← subscript_str region' "value";
    Ok (countries ++ [mkCountry id name region_value'])
  else Ok countries.

(** The [try] block.  [response] is the outcome of [requests.get(...)] followed
    by [response.json()]: the parsed payload, or the exception either of them
    raised. *)
Definition fetch_countries (response : result json) : result (list country_row) :=
  data ← response;
  listing ← subscript_int data 1;
  items ← iterate listing;
  for_each add_country items [].

(** The frame of the [except] branch. *)
Definition fallback_countries : list country_row :=
  [ mkCountry (JStr "USA") (JStr "United States") (JStr "North America");
    mkCountry (JStr "GBR") (JStr "United Kingdom") (JStr "Europe & Central Asia");
    mkCountry (JStr "JPN") (JStr "Japan") (JStr "East Asia & Pacific");
    mkCountry (JStr "DEU") (JStr "Germany") (JStr "Europe & Central Asia");
    mkCountry (JStr "IND") (JStr "India") (JStr "South Asia") ].

(** [get_countries]: [except Exception] catches whatever the [try] block
    raised, whichever exception it is. *)
Definition get_countries (response : result json) : list country_row :=
  match fetch_countries response with
  | Ok countries => countries
  | Raise _ => fallback_countries
  end.

(** [get_indicators]: the catalogue of (id, name) pairs. *)
Definition get_indicators : list (string * string) :=
  [ ("NY.GDP.MKTP.CD", "GDP (current US$)");
    ("NY.GDP.MKTP.KD.ZG", "GDP growth (annual %)");
    ("FP.CPI.TOTL.ZG", "Inflation, consumer prices (annual %)") ].

(** ** The render pass *)

(** [countries_df['region']]: a frame built from a list of rows has the column;
    a frame built from the empty list has no columns at all. *)
Definition region_column (countries_df : list country_row) : result (list json) :=
  match countries_df with
  | [] => Raise KeyError
  | _ :: _ => Ok (map c_region countries_df)
  end.

(** [data.iloc[-1]]: the last row, or [IndexError] on a frame without rows. *)
Definition iloc_last {F} (data : DataFrame F) : result (Z * F) :=
  match last (points data) with
  | Some row => Ok row
  | None => Raise IndexError
  end.

(** [data.iloc[-1]['value']] *)
Definition latest_value {F} (data : DataFrame F) : result F :=
  row ← iloc_last data; Ok row.2.

(** [indicators_data[indicator]] *)
Definition dict_getitem {F} (indicators_data : gmap string (DataFrame F)) (indicator : string)
  : result (DataFrame F) :=
  match indicators_data !! indicator with
  | Some data => Ok data
  | None => Raise KeyError
  end.

(** The loop that fills [indicators_data]: one series per selected indicator,
    in order, a later series replacing an earlier one of the same name. *)
Definition load_indicators {F G} `{PyFloat F} `{RandomSource F G}
    (selected_indicators : list string) (start_year end_year : Z) (g : G)
  : result (gmap string (DataFrame F) * G) :=
  for_each (fun '(indicators_data, g) indicator =>
              '(sample_data, g') ← get_sample_data indicator start_year end_year g;
              Ok (<[indicator := sample_data]> indicators_data, g'))
           selected_indicators (∅, g).

(** [c.lower()] for an ASCII character. *)
Definition lower_ascii (a : ascii) : ascii :=
  let n := nat_of_ascii a in
  if (65 <=? n)%nat && (n <=? 90)%nat then ascii_of_nat (n + 32) else a.

(** [s.lower()] for an ASCII string. *)
Fixpoint lower (s : string) : string :=
  match s with
  | EmptyString => EmptyString
  | String a s' => String (lower_ascii a) (lower s')
  end.

(** The three renderings of a metric: [f"{v:.2f}%"], [f"${v/1e12:.2f} Trillion"]
    and [f"{v:.2f}"]. *)
Inductive display : Type := Percent | Trillions | Plain.

(** The [if]/[elif]/[else] that picks the rendering of a metric. *)
Definition metric_display (indicator : string) : display :=
  if str_in "growth" (lower indicator) || str_in "inflation" (lower indicator) then Percent
  else if str_in "gdp" (lower indicator) then Trillions
  else Plain.

(** The key-metrics column: for each selected indicator its frame, the latest
    value and the rendering. *)
Definition key_metrics {F} (selected_indicators : list string)
    (indicators_data : gmap string (DataFrame F)) : result (list (string * display * F)) :=
  traverse (fun indicator =>
              data ← dict_getitem indicators_data indicator;
              latest ← latest_value data;
              Ok (indicator, metric_display indicator, latest))
           selected_indicators.

(** ** A replayed random source *)

(** A source for tests that replays a tape of recorded draws: a normal draw
    returns the next recorded value, a uniform draw returns it when it lies
    within the bounds asked for and the lower bound otherwise.  On an empty
    tape both return their first argument. *)
#[global] Instance tape_source {F} `{PyFloat F} : RandomSource F (list F) := {
  normal := fun loc _ tape =>
    match tape with
    | x :: tape' => (x, tape')
    | [] => (loc, [])
    end;
  uniform := fun low high tape =>
    match tape with
    | x :: tape' => (if fgeb x low && fgeb high x then x else low, tape')
    | [] => (low, [])
    end
}.

(** ** The vocabulary of the properties *)

(** The recurrence as the specification words it: [0.7] times the smoothed
    predecessor plus [0.3] times the raw value. *)
Definition blend {F} `{PyFloat F} (prev cur : F) : F :=
  fadd (fmul (flit 0.7) prev) (fmul (flit 0.3) cur).

Fixpoint smoothed_from {F} `{PyFloat F} (prev : F) (raw : list F) : list F :=
  match raw with
  | [] => []
  | r :: raw' => blend prev r :: smoothed_from (blend prev r) raw'
  end.

(** The whole smoothed sequence: the first raw value, then the recurrence. *)
Definition smoothed {F} `{PyFloat F} (raw : list F) : list F :=
  match raw with
  | [] => []
  | r0 :: raw' => r0 :: smoothed_from r0 raw'
  end.

(** The generator state after [i] draws. *)
Fixpoint state_after {F G} (draw : G -> F * G) (i : nat) (g : G) : G :=
  match i with
  | O => g
  | S i' => state_after draw i' (draw g).2
  end.

(** [values] are [n] successive draws from [g], which leave the state [g']. *)
Definition drawn {F G} (draw : G -> F * G) (n : nat) (g : G) (values : list F) (g' : G)
  : Prop :=
  length values = n /\
  (forall i : nat, (i < n)%nat -> values !! i = Some (draw (state_after draw i g)).1) /\
  g' = state_after draw n g.

(** The name selects the third rule, the compounding curve. *)
Definition uses_level_rule (indicator : string) : Prop :=
  ~ (Substring "GDP" indicator /\ Substring "growth" indicator) /\
  ~ Substring "Inflation" indicator.

(** The frame has one point per year of the range, in order. *)
Definition covers_range {F} (d : DataFrame F) (start_year end_year : Z) : Prop :=
  length (points d) = Z.to_nat (end_year - start_year + 1) /\
  forall i : nat,
    (i < Z.to_nat (end_year - start_year + 1))%nat ->
    exists v, points d !! i = Some ((start_year + Z.of_nat i)%Z, v).

(** [powers_ok fuel k]: none of [x ** k], ..., [x ** (k + fuel - 1)] raises. *)
Fixpoint powers_ok {F} `{PyFloat F} (x : F) (fuel : nat) (k : N) : bool :=
  match fuel with
  | O => true
  | S fuel' => is_Ok (fpow x k) && powers_ok x fuel' (N.succ k)
  end.

(** What numpy documents for [uniform(low, high)] with [low <= high]: the draw
    lies within the two bounds. *)
Definition uniform_within_bounds {F G : Type} `{PyFloat F} `{RandomSource F G} : Prop :=
  forall (low high : F) (g : G),
    fgeb high low = true ->
    fgeb (uniform low high g).1 low = true /\ fgeb high (uniform low high g).1 = true.




(** The fields the loop of [get_countries] reads from an entry. *)
Definition has_fields (entry : json) (row : country_row) : Prop :=
  subscript_str entry "id" = Ok (c_id row) /\
  subscript_str entry "name" = Ok (c_name row) /\
  exists region,
    subscript_str entry "region" = Ok region /\
    subscript_str region "value" = Ok (c_region row).

(** The entry is an aggregate: its region value is the string "Aggregates". *)
Definition is_aggregate (entry : json) : Prop :=
  exists region,
    subscript_str entry "region" = Ok region /\
    subscript_str region "value" = Ok (JStr "Aggregates").

(** Every character is below 128. *)
Fixpoint is_ascii (s : string) : bool :=
  match s with
  | EmptyString => true
  | String a s' => (nat_of_ascii a <? 128)%nat && is_ascii s'
  end.

(** What the year sliders allow: 2010 to 2022 for the start, and from the year
    after the start to 2023 for the end. *)
Definition slider_range (start_year end_year : Z) : Prop :=
  (2010 <= start_year <= 2022)%Z /\ (start_year + 1 <= end_year <= 2023)%Z.

(** * Properties *)

(** ** The [in] operator decides [Substring] *)

Lemma append_String (a : ascii) (s t : string) :
  String.append (String a s) t = String a (String.append s t).
Proof. reflexivity. Qed.

Lemma starts_with_spec (p s : string) :
  starts_with p s = true <-> exists post, s = String.append p post.
Proof.
  revert s. induction p as [|a p IH]; intros s; simpl.
  - split; [intros _; by exists s | done].
  - destruct s as [|b s].
    + split; [done | intros [post Hpost]; discriminate].
    + destruct (Ascii.eqb_spec a b) as [->|Hab].
      * rewrite IH. split; intros [post Hpost]; exists post;
          rewrite append_String in *; congruence.
      * split; [done | intros [post Hpost]; rewrite append_String in Hpost; congruence].
Qed.

Lemma str_in_spec (needle hay : string) :
  str_in needle hay = true <-> Substring needle hay.
Proof.
  unfold Substring. induction hay as [|b hay IH].
  - simpl. rewrite orb_false_r, starts_with_spec. split.
    + intros [post Hpost]. by exists EmptyString, post.
    + intros [[|a pre] [post Hpost]]; [by exists post | discriminate].
  - cbn [str_in]. rewrite orb_true_iff, starts_with_spec, IH. split.
    + intros [[post Hpost]|(pre & post & Hpost)].
      * by exists EmptyString, post.
      * exists (String b pre), post. by rewrite append_String, Hpost.
    + intros [[|a pre] [post Hpost]].
      * left. by exists post.
      * right. exists pre, post. rewrite append_String in Hpost. congruence.
Qed.

#[global] Instance Substring_dec (needle hay : string) : Decision (Substring needle hay).
Proof.
  destruct (str_in needle hay) eqn:E.
  - left. by apply str_in_spec.
  - right. intros Hs. apply str_in_spec in Hs. congruence.
Defined.

Lemma str_in_false (needle hay : string) :
  str_in needle hay = false <-> ~ Substring needle hay.
Proof. rewrite <- str_in_spec. by destruct (str_in needle hay). Qed.

(** ** The result monad and the loops *)

Lemma getitem_Ok {A} (l : list A) (i : nat) (x : A) :
  l !! i = Some x -> getitem l i = Ok x.
Proof. unfold getitem. by intros ->. Qed.

Lemma traverse_Ok_length {A B} (f : A -> result B) (l : list A) (ys : list B) :
  traverse f l = Ok ys -> length ys = length l.
Proof.
  revert ys. induction l as [|x l IH]; intros ys; simpl.
  - by intros [= <-].
  - destruct (f x) as [y|e]; simpl; [|done].
    destruct (traverse f l) as [ys'|e]; simpl; [|done].
    intros [= <-]. simpl. by rewrite (IH ys').
Qed.

Lemma traverse_Ok_lookup {A B} (f : A -> result B) (l : list A) (ys : list B) i x :
  traverse f l = Ok ys -> l !! i = Some x -> exists y, f x = Ok y /\ ys !! i = Some y.
Proof.
  revert ys i. induction l as [|x' l IH]; intros ys i; simpl; [done|].
  destruct (f x') as [y'|e] eqn:Hfx; simpl; [|done].
  destruct (traverse f l) as [ys'|e] eqn:Htl; simpl; [|done].
  intros [= <-]. destruct i as [|i]; simpl.
  - intros [= <-]. by exists y'.
  - by apply IH.
Qed.

Lemma traverse_total {A B} (f : A -> result B) (l : list A) :
  (forall x, x ∈ l -> is_Ok (f x) = true) -> exists ys, traverse f l = Ok ys.
Proof.
  induction l as [|x l IH]; intros Hf; simpl; [by eexists|].
  specialize (Hf x (list_elem_of_here _ _)) as Hx.
  destruct (f x) as [y|e]; [|done].
  destruct IH as [ys ->].
  - intros x' Hx'. apply Hf. by apply list_elem_of_further.
  - simpl. by eexists.
Qed.

(** ** C2: the smoothing pass *)

Section Smoothing.
Context {F : Type} `{PyFloat F}.

(** One iteration, at the position just after [pre ++ [p]]. *)
Lemma smooth_at_middle (pre : list F) (p r : F) (rest : list F) :
  smooth_at (pre ++ p :: r :: rest) (S (length pre))
  = Ok ((pre ++ [p]) ++ blend p r :: rest).
Proof.
  unfold smooth_at.
  replace (S (length pre) - 1)%nat with (length pre) by lia.
  rewrite (getitem_Ok (pre ++ p :: r :: rest) (length pre) p)
    by (by apply list_lookup_middle).
  simpl.
  rewrite (getitem_Ok (pre ++ p :: r :: rest) (S (length pre)) r).
  2: { rewrite (cons_middle p), app_assoc.
       apply list_lookup_middle. rewrite length_app. simpl. lia. }
  simpl. fold (blend p r). f_equal.
  rewrite <- app_assoc. simpl.
  replace (S (length pre)) with (length pre + 1)%nat by lia.
  by rewrite insert_app_r.
Qed.

(** The loop invariant: once the loop has passed the positions of [pre] and
    [p], those hold their final values and the rest is still raw. *)
Lemma smooth_loop (pre : list F) (p : F) (rest : list F) :
  for_each smooth_at (seq (S (length pre)) (length rest)) (pre ++ p :: rest)
  = Ok (pre ++ p :: smoothed_from p rest).
Proof.
  revert pre p. induction rest as [|r rest IH]; intros pre p; [done|].
  cbn [length seq for_each smoothed_from].
  rewrite smooth_at_middle. simpl.
  specialize (IH (pre ++ [p]) (blend p r)).
  rewrite length_app in IH. simpl in IH.
  replace (length pre + 1)%nat with (S (length pre)) in IH by lia.
  rewrite IH. by rewrite <- app_assoc.
Qed.

Lemma smooth_smoothed (raw : list F) : smooth raw = Ok (smoothed raw).
Proof.
  destruct raw as [|r0 raw]; [done|].
  unfold smooth. cbn [length]. replace (S (length raw) - 1)%nat with (length raw) by lia.
  apply (smooth_loop [] r0 raw).
Qed.

Lemma smoothed_from_length (prev : F) (raw : list F) :
  length (smoothed_from prev raw) = length raw.
Proof. revert prev. induction raw as [|r raw IH]; intros prev; simpl; by rewrite ?IH. Qed.

Lemma smoothed_length (raw : list F) : length (smoothed raw) = length raw.
Proof. destruct raw; simpl; by rewrite ?smoothed_from_length. Qed.

Lemma smoothed_from_step (p : F) (raw : list F) (i : nat) (prev cur : F) :
  (p :: smoothed_from p raw) !! i = Some prev ->
  raw !! i = Some cur ->
  smoothed_from p raw !! i = Some (blend prev cur).
Proof.
  revert p i. induction raw as [|r raw IH]; intros p i; [done|].
  destruct i as [|i]; simpl.
  - by intros [= <-] [= <-].
  - apply IH.
Qed.

Lemma smoothed_step (raw : list F) (i : nat) (prev cur : F) :
  smoothed raw !! i = Some prev ->
  raw !! S i = Some cur ->
  smoothed raw !! S i = Some (blend prev cur).
Proof. destruct raw as [|r0 raw]; [done|]. simpl. apply smoothed_from_step. Qed.

Lemma smoothed_head (raw : list F) : smoothed raw !! 0%nat = raw !! 0%nat.
Proof. by destruct raw. Qed.

End Smoothing.

(** C2.  For every raw sequence the smoothing loop returns, without raising, a
    sequence of the same length whose entry 0 is the raw entry 0 and whose
    entry [i+1] is [0.7] times its own entry [i] plus [0.3] times the raw entry
    [i+1]; a raw [[r0; r1; r2]] gives
    [[r0; 0.7*r0 + 0.3*r1; 0.7*(0.7*r0 + 0.3*r1) + 0.3*r2]].  This holds for
    every arithmetic, binary64 included. *)
Theorem smooth_recurrence {F : Type} `{PyFloat F} (raw : list F) :
  exists out : list F,
    smooth raw = Ok out /\
    length out = length raw /\
    out !! 0%nat = raw !! 0%nat /\
    (forall (i : nat) (prev cur : F),
        out !! i = Some prev -> raw !! S i = Some cur ->
        out !! S i = Some (fadd (fmul (flit 0.7) prev) (fmul (flit 0.3) cur))) /\
    (forall r0 r1 r2 : F,
        raw = [r0; r1; r2] ->
        out = [ r0;
                fadd (fmul (flit 0.7) r0) (fmul (flit 0.3) r1);
                fadd (fmul (flit 0.7) (fadd (fmul (flit 0.7) r0) (fmul (flit 0.3) r1)))
                     (fmul (flit 0.3) r2) ]).
Proof.
  exists (smoothed raw). split; [apply smooth_smoothed|].
  split; [apply smoothed_length|]. split; [apply smoothed_head|]. split.
  - intros i prev cur. apply smoothed_step.
  - by intros r0 r1 r2 ->.
Qed.

(** ** Draws and the compounding curve *)

Lemma draws_drawn {F G A} (draw : G -> F * G) (l : list A) (g : G) :
  drawn draw (length l) g (draws draw l g).1 (draws draw l g).2.
Proof.
  revert g. induction l as [|a l IH]; intros g.
  - repeat split. intros i Hi. simpl in Hi. lia.
  - simpl. destruct (draw g) as [x g1] eqn:Hd.
    destruct (IH g1) as (Hlen & Hnth & Hst).
    destruct (draws draw l g1) as [xs g2]. simpl in *.
    split; [simpl; by rewrite Hlen|]. split.
    + intros [|i] Hi; simpl; rewrite Hd; simpl; [done|]. apply Hnth. lia.
    + simpl. by rewrite Hd.
Qed.

Lemma enumerate_from_lookup {A} (k : N) (l : list A) (i : nat) :
  enumerate_from k l !! i = (fun y => ((k + N.of_nat i)%N, y)) <$> l !! i.
Proof.
  revert k i. induction l as [|a l IH]; intros k i; [done|].
  destruct i as [|i]; simpl.
  - by rewrite N.add_0_r.
  - rewrite IH. by replace (N.succ k + N.of_nat i)%N with (k + N.pos (Pos.of_succ_nat i))%N by lia.
Qed.

Lemma enumerate_lookup {A} (l : list A) (i : nat) :
  enumerate l !! i = (fun y => (N.of_nat i, y)) <$> l !! i.
Proof. apply (enumerate_from_lookup 0). Qed.

Lemma enumerate_from_length {A} (k : N) (l : list A) :
  length (enumerate_from k l) = length l.
Proof. revert k. induction l as [|a l IH]; intros k; simpl; by rewrite ?IH. Qed.

Lemma enumerate_length {A} (l : list A) : length (enumerate l) = length l.
Proof. apply enumerate_from_length. Qed.

Lemma range_from_length (lo : Z) (n : nat) : length (range_from lo n) = n.
Proof. revert lo. induction n as [|n IH]; intros lo; simpl; by rewrite ?IH. Qed.

Lemma range_from_lookup (lo : Z) (n i : nat) :
  (i < n)%nat -> range_from lo n !! i = Some (lo + Z.of_nat i)%Z.
Proof.
  revert lo i. induction n as [|n IH]; intros lo i Hi; [lia|].
  destruct i as [|i]; simpl.
  - f_equal. lia.
  - rewrite IH by lia. f_equal. lia.
Qed.

Lemma range_length (lo hi : Z) : length (range lo hi) = Z.to_nat (hi - lo).
Proof. apply range_from_length. Qed.

Lemma range_lookup (lo hi : Z) (i : nat) :
  (i < Z.to_nat (hi - lo))%nat -> range lo hi !! i = Some (lo + Z.of_nat i)%Z.
Proof. apply range_from_lookup. Qed.

Section Level.
Context {F : Type} `{PyFloat F}.

Lemma level_values_length (base : F) (years : list Z) (values : list F) :
  level_values base years = Ok values -> length values = length years.
Proof.
  intros Hv. apply traverse_Ok_length in Hv. by rewrite Hv, enumerate_length.
Qed.

Lemma level_values_lookup (base : F) (years : list Z) (values : list F) (i : nat) :
  level_values base years = Ok values ->
  (i < length years)%nat ->
  exists p, fpow (fadd (flit 1) (flit 0.03)) (N.of_nat i) = Ok p /\
            values !! i = Some (fmul base p).
Proof.
  intros Hv Hi.
  destruct (lookup_lt_is_Some_2 years i Hi) as [y Hy].
  eapply (traverse_Ok_lookup _ _ _ i (N.of_nat i, y)) in Hv as (v & Hf & Hv).
  2: { by rewrite enumerate_lookup, Hy. }
  simpl in Hf. destruct (fpow _ (N.of_nat i)) as [p|e]; simpl in Hf; [|done].
  exists p. split; [done|]. congruence.
Qed.

Lemma level_values_total (base : F) (years : list Z) :
  (forall i : nat, (i < length years)%nat ->
                   is_Ok (fpow (fadd (flit 1) (flit 0.03)) (N.of_nat i)) = true) ->
  exists values, level_values base years = Ok values.
Proof.
  intros Hp. apply traverse_total. intros [i y] Hin.
  apply list_elem_of_lookup in Hin as [j Hj].
  rewrite enumerate_lookup in Hj.
  destruct (years !! j) as [y'|] eqn:Hy; simpl in Hj; [|done].
  injection Hj as <- <-.
  apply lookup_lt_Some in Hy. specialize (Hp j Hy).
  by destruct (fpow _ (N.of_nat j)).
Qed.

End Level.

(** ** C1: the choice of the generation rule *)

(** C1.  For every indicator name, year range and generator state, the raw
    values are built by the first rule that applies: with both "GDP" and
    "growth" in the name, one [normal(3, 1)] draw per year; otherwise with
    "Inflation" in the name, one [normal(2.5, 0.8)] draw per year; otherwise
    the comprehension [base * (1 + 0.03) ** i] with [base] 1.0 when "GDP" is in
    the name and 200.0 when it is not, which leaves the generator untouched.
    In that last rule the value at position [i] is [base] times the power the
    interpreter computes for [i]; the comprehension returns whenever no power
    overflows. *)
Theorem raw_values_rule {F G : Type} `{PyFloat F} `{RandomSource F G}
    (indicator : string) (start_year end_year : Z) (g : G) :
  (Substring "GDP" indicator /\ Substring "growth" indicator ->
   exists values g',
     raw_values indicator (range start_year (end_year + 1)) g = Ok (values, g') /\
     drawn (normal (flit 3) (flit 1))
           (length (range start_year (end_year + 1))) g values g') /\
  (~ (Substring "GDP" indicator /\ Substring "growth" indicator) ->
   Substring "Inflation" indicator ->
   exists values g',
     raw_values indicator (range start_year (end_year + 1)) g = Ok (values, g') /\
     drawn (normal (flit 2.5) (flit 0.8))
           (length (range start_year (end_year + 1))) g values g') /\
  (~ (Substring "GDP" indicator /\ Substring "growth" indicator) ->
   ~ Substring "Inflation" indicator ->
   forall base : F,
     base = (if decide (Substring "GDP" indicator) then flit 1.0 else flit 200.0) ->
     raw_values indicator (range start_year (end_year + 1)) g
     = (values ← level_values base (range start_year (end_year + 1)); Ok (values, g)) /\
     (forall values g',
         raw_values indicator (range start_year (end_year + 1)) g = Ok (values, g') ->
         g' = g /\
         length values = length (range start_year (end_year + 1)) /\
         forall i : nat,
           (i < length (range start_year (end_year + 1)))%nat ->
           exists p, fpow (fadd (flit 1) (flit 0.03)) (N.of_nat i) = Ok p /\
                     values !! i = Some (fmul base p)) /\
     ((forall i : nat,
          (i < length (range start_year (end_year + 1)))%nat ->
          is_Ok (fpow (fadd (flit 1) (flit 0.03)) (N.of_nat i)) = true) ->
      exists values,
        raw_values indicator (range start_year (end_year + 1)) g = Ok (values, g))).
Proof.
  set (years := range start_year (end_year + 1)).
  unfold raw_values. split; [|split].
  - intros [Hgdp Hgrowth].
    apply str_in_spec in Hgdp, Hgrowth. rewrite Hgdp, Hgrowth. simpl.
    pose proof (draws_drawn (normal (flit 3) (flit 1)) years g) as Hd.
    destruct (draws _ years g) as [values g']. by exists values, g'.
  - intros Hng Hinf.
    destruct (str_in "GDP" indicator && str_in "growth" indicator) eqn:E.
    { exfalso. apply Hng. apply andb_true_iff in E as [E1 E2].
      split; by apply str_in_spec. }
    apply str_in_spec in Hinf. rewrite Hinf.
    pose proof (draws_drawn (normal (flit 2.5) (flit 0.8)) years g) as Hd.
    destruct (draws _ years g) as [values g']. by exists values, g'.
  - intros Hng Hninf base ->.
    destruct (str_in "GDP" indicator && str_in "growth" indicator) eqn:E.
    { exfalso. apply Hng. apply andb_true_iff in E as [E1 E2].
      split; by apply str_in_spec. }
    apply str_in_false in Hninf. rewrite Hninf.
    assert ((if str_in "GDP" indicator then flit 1.0 else flit 200.0)
            = (if decide (Substring "GDP" indicator) then flit 1.0 else flit 200.0 : F))
      as ->.
    { destruct (decide _) as [Hs|Hs].
      - apply str_in_spec in Hs. by rewrite Hs.
      - apply str_in_false in Hs. by rewrite Hs. }
    set (base := if decide _ then _ else _).
    split; [done|]. split.
    + intros values g'.
      destruct (level_values base years) as [vs|e] eqn:Hl; simpl; [|done].
      intros [= <- <-]. split; [done|]. split.
      * by apply (level_values_length base).
      * intros i Hi. by apply (level_values_lookup base years).
    + intros Hp. destruct (level_values_total base years Hp) as [values ->].
      by exists values.
Qed.

(** ** The series generator as a whole *)

Section Generator.
Context {F G : Type} `{PyFloat F} `{RandomSource F G}.

Lemma raw_values_length (indicator : string) (years : list Z) (g g' : G)
    (values : list F) :
  raw_values indicator years g = Ok (values, g') -> length values = length years.
Proof.
  unfold raw_values.
  destruct (str_in "GDP" indicator && str_in "growth" indicator).
  { intros [= Hd]. pose proof (draws_drawn (normal (flit 3) (flit 1)) years g) as [Hl _].
    by rewrite Hd in Hl. }
  destruct (str_in "Inflation" indicator).
  { intros [= Hd]. pose proof (draws_drawn (normal (flit 2.5) (flit 0.8)) years g) as [Hl _].
    by rewrite Hd in Hl. }
  destruct (level_values _ years) as [vs|e] eqn:Hl; simpl; [|done].
  intros [= <- _]. by eapply level_values_length.
Qed.

Lemma raw_values_total (indicator : string) (years : list Z) (g : G) :
  (uses_level_rule indicator ->
   forall i : nat, (i < length years)%nat ->
                   is_Ok (fpow (fadd (flit 1) (flit 0.03)) (N.of_nat i)) = true) ->
  exists values g', raw_values indicator years g = Ok (values, g').
Proof.
  intros Hp. unfold raw_values.
  destruct (str_in "GDP" indicator && str_in "growth" indicator) eqn:E1.
  { destruct (draws _ years g) as [values g']. by exists values, g'. }
  destruct (str_in "Inflation" indicator) eqn:E2.
  { destruct (draws _ years g) as [values g']. by exists values, g'. }
  edestruct (level_values_total (F:=F)) as [values ->].
  - apply Hp. split.
    + intros [H1 H2]. apply str_in_spec in H1, H2. by rewrite H1, H2 in E1.
    + by apply str_in_false.
  - by exists values, g.
Qed.

(** After the raw values, nothing can raise: the loop stays within the list
    and the two columns have the same length. *)
Lemma get_sample_data_of_raw (indicator : string) (start_year end_year : Z) (g g' : G)
    (values : list F) :
  raw_values indicator (range start_year (end_year + 1)) g = Ok (values, g') ->
  get_sample_data indicator start_year end_year g
  = Ok (mkDataFrame (range start_year (end_year + 1)) (smoothed values), g').
Proof.
  intros Hraw. unfold get_sample_data. rewrite Hraw. simpl.
  rewrite smooth_smoothed. simpl. unfold make_frame.
  rewrite decide_True; [done|].
  by rewrite smoothed_length, (raw_values_length _ _ _ _ _ Hraw).
Qed.

Lemma frame_covers_range (start_year end_year : Z) (values : list F) :
  length values = length (range start_year (end_year + 1)) ->
  covers_range (mkDataFrame (range start_year (end_year + 1)) values) start_year end_year.
Proof.
  intros Hlen. unfold covers_range, points. simpl.
  rewrite range_length in Hlen.
  replace (end_year + 1 - start_year)%Z with (end_year - start_year + 1)%Z in * by lia.
  split.
  - rewrite length_zip, range_length. 
    replace (end_year + 1 - start_year)%Z with (end_year - start_year + 1)%Z by lia. lia.
  - intros i Hi.
    destruct (lookup_lt_is_Some_2 values i) as [v Hv]; [lia|].
    exists v. apply lookup_zip_Some. split; [|done].
    apply range_lookup. lia.
Qed.

Lemma get_sample_data_returns (indicator : string) (start_year end_year : Z) (g : G) :
  (uses_level_rule indicator ->
   forall i : nat,
     (i < Z.to_nat (end_year - start_year + 1))%nat ->
     is_Ok (fpow (fadd (flit 1) (flit 0.03)) (N.of_nat i)) = true) ->
  exists d g',
    get_sample_data indicator start_year end_year g = Ok (d, g') /\
    covers_range d start_year end_year.
Proof.
  intros Hp.
  destruct (raw_values_total indicator (range start_year (end_year + 1)) g)
    as (values & g' & Hraw).
  { intros Hl i Hi. apply Hp; [done|]. rewrite range_length in Hi. lia. }
  exists (mkDataFrame (range start_year (end_year + 1)) (smoothed values)), g'.
  split; [by apply get_sample_data_of_raw|].
  apply frame_covers_range.
  by rewrite smoothed_length, (raw_values_length _ _ _ _ _ Hraw).
Qed.

End Generator.

(** ** Powers of 1.03 in binary64 *)

Lemma powers_ok_spec {F} `{PyFloat F} (x : F) (fuel : nat) (k i : N) :
  powers_ok x fuel k = true ->
  (k <= i < k + N.of_nat fuel)%N ->
  is_Ok (fpow x i) = true.
Proof.
  revert k. induction fuel as [|fuel IH]; intros k Hok Hi; [lia|].
  simpl in Hok. apply andb_true_iff in Hok as [Hk Hrest].
  destruct (decide (i = k)) as [->|Hne]; [done|].
  apply (IH (N.succ k)); [done | lia].
Qed.

(** In binary64 the powers of [1 + 0.03] stay finite up to the exponent 24000. *)
Lemma float_powers_finite (i : nat) :
  (Z.of_nat i <= 24000)%Z ->
  is_Ok (fpow (F:=float) (fadd (flit 1) (flit 0.03)) (N.of_nat i)) = true.
Proof.
  intros Hi.
  apply (powers_ok_spec _ (Z.to_nat 24001) 0%N); [by vm_compute | lia].
Qed.

(** ** C4: one point per year *)

(** C4, as the code has it.  For every indicator name and every year range
    with [end_year >= start_year], the generator returns exactly
    [end_year - start_year + 1] points whose years are [start_year],
    [start_year + 1], ... in order, provided that, when the name selects the
    compounding curve, none of the powers [(1 + 0.03) ** i] for the positions
    of the range overflows.  The two random rules need no proviso.  In binary64
    the proviso holds for every range of at most 24001 years. *)
Theorem get_sample_data_points :
  (forall (F G : Type) (ops : PyFloat F) (src : RandomSource F G)
          (indicator : string) (start_year end_year : Z) (g : G),
      (start_year <= end_year)%Z ->
      (uses_level_rule indicator ->
       forall i : nat,
         (Z.of_nat i <= end_year - start_year)%Z ->
         is_Ok (fpow (fadd (flit 1) (flit 0.03)) (N.of_nat i)) = true) ->
      exists d g',
        get_sample_data indicator start_year end_year g = Ok (d, g') /\
        Z.of_nat (length (points d)) = (end_year - start_year + 1)%Z /\
        forall i : nat,
          (Z.of_nat i <= end_year - start_year)%Z ->
          exists v, points d !! i = Some ((start_year + Z.of_nat i)%Z, v)) /\
  (forall (G : Type) (src : RandomSource float G)
          (indicator : string) (start_year end_year : Z) (g : G),
      (start_year <= end_year <= start_year + 24000)%Z ->
      exists d g',
        get_sample_data (F:=float) indicator start_year end_year g = Ok (d, g') /\
        Z.of_nat (length (points d)) = (end_year - start_year + 1)%Z /\
        forall i : nat,
          (Z.of_nat i <= end_year - start_year)%Z ->
          exists v, points d !! i = Some ((start_year + Z.of_nat i)%Z, v)).
Proof.
  split.
  - intros F G ops src indicator start_year end_year g Hle Hp.
    destruct (get_sample_data_returns indicator start_year end_year g)
      as (d & g' & Hd & Hlen & Hpts).
    { intros Hl i Hi. apply Hp; [done | lia]. }
    exists d, g'. split; [done|]. split; [lia|].
    intros i Hi. apply Hpts. lia.
  - intros G src indicator start_year end_year g Hle.
    destruct (get_sample_data_returns (F:=float) indicator start_year end_year g)
      as (d & g' & Hd & Hlen & Hpts).
    { intros _ i Hi. apply float_powers_finite. lia. }
    exists d, g'. split; [done|]. split; [lia|].
    intros i Hi. apply Hpts. lia.
Qed.

(** ** C8: the empty range *)

(** C8.  For every indicator name and every year range with
    [end_year < start_year], the year list is empty, the smoothing loop has
    nothing to do, and the generator returns, without raising and without
    touching the random source, the frame with no points. *)
Theorem get_sample_data_empty {F G : Type} `{PyFloat F} `{RandomSource F G}
    (indicator : string) (start_year end_year : Z) (g : G) :
  (end_year < start_year)%Z ->
  range start_year (end_year + 1) = [] /\
  smooth ([] : list F) = Ok [] /\
  get_sample_data indicator start_year end_year g = Ok (mkDataFrame [] [], g) /\
  points (mkDataFrame (F:=F) [] []) = [].
Proof.
  intros Hlt.
  assert (range start_year (end_year + 1) = []) as Hr.
  { unfold range. by replace (Z.to_nat (end_year + 1 - start_year)) with 0%nat by lia. }
  split; [done|]. split; [done|]. split; [|done].
  unfold get_sample_data, raw_values, level_values. rewrite Hr. simpl.
  by repeat destruct (str_in _ _).
Qed.

(** ** C7: the substring tests are case-sensitive *)

(** C7.  A name that contains neither "GDP" nor "Inflation" in exactly that
    spelling gets the compounding curve with base 200.0, whatever else it
    contains: so do "gdp growth" and "inflation rate", whose lower-case words
    match nothing, and no draw is made for them.  "GDP Growth" has "GDP" but
    not "growth", and gets the curve with base 1.0. *)
Theorem classification_case_sensitive {F G : Type} `{PyFloat F} `{RandomSource F G}
    (years : list Z) (g : G) :
  (forall indicator : string,
      ~ Substring "GDP" indicator -> ~ Substring "Inflation" indicator ->
      raw_values indicator years g
      = (values ← level_values (flit 200.0) years; Ok (values, g))) /\
  raw_values "gdp growth" years g
  = (values ← level_values (flit 200.0) years; Ok (values, g)) /\
  raw_values "inflation rate" years g
  = (values ← level_values (flit 200.0) years; Ok (values, g)) /\
  raw_values "GDP Growth" years g
  = (values ← level_values (flit 1.0) years; Ok (values, g)).
Proof.
  split; [|done].
  intros indicator Hgdp Hinf. unfold raw_values.
  apply str_in_false in Hgdp, Hinf. by rewrite Hgdp, Hinf.
Qed.

(** ** C3 and C9: the risk classifier *)

Section Classifier.
Context {F : Type} `{PyFloat F}.

(** The three outcomes, by the two comparisons the code makes. *)
Lemma classify_high (score : F) :
  fgeb score (flit 7) = true ->
  classify score
  = ("High Risk", "risk-high",
     "Economic conditions face significant headwinds. Policy intervention may be needed to stabilize growth and inflation.").
Proof. unfold classify, risk_analysis, generate_outlook. by intros ->. Qed.

Lemma classify_medium (score : F) :
  fgeb score (flit 7) = false -> fgeb score (flit 4) = true ->
  classify score
  = ("Medium Risk", "risk-medium",
     "Economic conditions show mixed signals with moderate risks. Careful monitoring recommended.").
Proof. unfold classify, risk_analysis, generate_outlook. by intros -> ->. Qed.

Lemma classify_low (score : F) :
  fgeb score (flit 7) = false -> fgeb score (flit 4) = false ->
  classify score
  = ("Low Risk", "risk-low",
     "Economic conditions appear favorable with positive outlook for sustained growth and stability.").
Proof. unfold classify, risk_analysis, generate_outlook. by intros -> ->. Qed.

End Classifier.

Lemma Q_fgeb_true (x y : Q) : fgeb x y = true <-> (y <= x)%Q.
Proof. apply Qle_bool_iff. Qed.

Lemma Q_fgeb_false (x y : Q) : fgeb x y = false <-> (x < y)%Q.
Proof.
  simpl. rewrite <- not_true_iff_false, Qle_bool_iff. split.
  - apply Qnot_le_lt.
  - apply Qlt_not_le.
Qed.

(** C3.  Over exact scores: a score of at least 7 is "High Risk" with tag
    "risk-high" and the headwinds sentence; a score of at least 4 and below 7
    is "Medium Risk" with tag "risk-medium" and the mixed-signals sentence; a
    score below 4 is "Low Risk" with tag "risk-low" and the favorable
    sentence.  As doubles, 7.0 is High, 6.999 and 4.0 are Medium, 3.999 and 2.0
    are Low, and scores outside [2, 8] such as 8.5, 1000.0, 1.5 and -3.0 are
    classified by the same thresholds. *)
Theorem risk_classification :
  (forall score : Q,
      ((7 <= score)%Q ->
       classify score
       = ("High Risk", "risk-high",
          "Economic conditions face significant headwinds. Policy intervention may be needed to stabilize growth and inflation.")) /\
      ((4 <= score)%Q /\ (score < 7)%Q ->
       classify score
       = ("Medium Risk", "risk-medium",
          "Economic conditions show mixed signals with moderate risks. Careful monitoring recommended.")) /\
      ((score < 4)%Q ->
       classify score
       = ("Low Risk", "risk-low",
          "Economic conditions appear favorable with positive outlook for sustained growth and stability."))) /\
  risk_analysis (F:=float) (flit 7.0) = ("High Risk", "risk-high") /\
  risk_analysis (F:=float) (flit 6.999) = ("Medium Risk", "risk-medium") /\
  risk_analysis (F:=float) (flit 4.0) = ("Medium Risk", "risk-medium") /\
  risk_analysis (F:=float) (flit 3.999) = ("Low Risk", "risk-low") /\
  risk_analysis (F:=float) (flit 2.0) = ("Low Risk", "risk-low") /\
  risk_analysis (F:=float) (flit 8.5) = ("High Risk", "risk-high") /\
  risk_analysis (F:=float) (flit 1000.0) = ("High Risk", "risk-high") /\
  risk_analysis (F:=float) (flit 1.5) = ("Low Risk", "risk-low") /\
  risk_analysis (F:=float) (flit (-3.0)) = ("Low Risk", "risk-low").
Proof.
  split; [|by vm_compute].
  intros score. split; [|split].
  - intros H7. apply classify_high. by apply Q_fgeb_true.
  - intros [H4 H7]. apply classify_medium.
    + by apply Q_fgeb_false.
    + by apply Q_fgeb_true.
  - intros H4. apply classify_low.
    + apply Q_fgeb_false. eapply Qlt_trans; [exact H4 | reflexivity].
    + by apply Q_fgeb_false.
Qed.

(** C9.  The label, the tag and the outlook sentence are a function of the
    score alone: equal scores give equal outputs, and so do any two scores
    that compare alike with 7 and with 4.  The classifier takes no state and
    returns none. *)
Theorem classify_deterministic {F : Type} `{PyFloat F} (score1 score2 : F) :
  (score1 = score2 ->
   risk_analysis score1 = risk_analysis score2 /\
   generate_outlook score1 = generate_outlook score2) /\
  (fgeb score1 (flit 7) = fgeb score2 (flit 7) ->
   fgeb score1 (flit 4) = fgeb score2 (flit 4) ->
   risk_analysis score1 = risk_analysis score2 /\
   generate_outlook score1 = generate_outlook score2).
Proof.
  split.
  - by intros ->.
  - intros H7 H4. unfold risk_analysis, generate_outlook. by rewrite H7, H4.
Qed.

(** ** C6: the risk score *)

(** C6.  The risk score is the draw [uniform(2, 8)] and nothing else: with a
    random source that keeps its draws within the bounds asked for, the score
    is at least 2 and at most 8, and for the same generator state any two
    values of the indicator data give the same score and the same next
    state. *)
Theorem risk_score_range_and_independence {F G : Type} `{PyFloat F} `{RandomSource F G} :
  uniform_within_bounds ->
  fgeb (flit 8) (flit 2) = true ->
  (forall (indicators_data : gmap string (DataFrame F)) (g : G),
      fgeb (calculate_risk_score indicators_data g).1 (flit 2) = true /\
      fgeb (flit 8) (calculate_risk_score indicators_data g).1 = true) /\
  (forall (data1 data2 : gmap string (DataFrame F)) (g : G),
      calculate_risk_score data1 g = calculate_risk_score data2 g).
Proof.
  intros Hu H28. split.
  - intros indicators_data g. unfold calculate_risk_score. by apply Hu.
  - done.
Qed.

(** ** C5: the country list falls back *)





(** A payload off the expected shape that raises nothing is not replaced: a
    listing that is an empty dict gives the empty frame. *)
Lemma get_countries_empty_listing :
  get_countries (Ok (JList [JNull; JDict []])) = [].
Proof. reflexivity. Qed.

(** The expected shape: aggregates are left out, the rest is kept in order. *)
Lemma get_countries_example :
  get_countries
    (Ok (JList [ JDict [("page", JNum 1)];
                 JList [ JDict [ ("id", JStr "ABW"); ("name", JStr "Aruba");
                                 ("region", JDict [("id", JStr "LCN");
                                                   ("value", JStr "Latin America & Caribbean ")]) ];
                         JDict [ ("id", JStr "AFE"); ("name", JStr "Africa Eastern and Southern");
                                 ("region", JDict [("id", JStr "NA");
                                                   ("value", JStr "Aggregates")]) ] ] ]))
  = [ mkCountry (JStr "ABW") (JStr "Aruba") (JStr "Latin America & Caribbean ") ].
Proof. reflexivity. Qed.

(** ** C10: the smoothed values and the raw prefix *)

Section Exact.
Local Open Scope Q_scope.







End Exact.


Lemma raw_values_level {F G : Type} `{PyFloat F} `{RandomSource F G}
    (indicator : string) (years : list Z) (g : G) :
  uses_level_rule indicator ->
  raw_values indicator years g
  = (values ← level_values
               (if decide (Substring "GDP" indicator) then flit 1.0 else flit 200.0) years;
     Ok (values, g)).
Proof.
  intros [Hng Hninf]. unfold raw_values.
  destruct (str_in "GDP" indicator && str_in "growth" indicator) eqn:E.
  { exfalso. apply Hng. apply andb_true_iff in E as [E1 E2].
    split; by apply str_in_spec. }
  apply str_in_false in Hninf. rewrite Hninf.
  destruct (decide _) as [Hs|Hs].
  - apply str_in_spec in Hs. by rewrite Hs.
  - apply str_in_false in Hs. by rewrite Hs.
Qed.

Section ExactLevel.
Local Open Scope Q_scope.





End ExactLevel.


(** ** Concrete runs *)


(** In binary64, a range of 30001 years under the compounding curve raises
    [OverflowError] instead of returning 30001 points: [(1 + 0.03) ** i] leaves
    the range of a double. *)
Lemma get_sample_data_overflow_counterexample :
  (0 <= 30000)%Z /\
  get_sample_data (F:=float) (G:=list float) "GDP (current US$)" 0 30000 []
  = Raise OverflowError /\
  ~ (exists d g',
        get_sample_data (F:=float) (G:=list float) "GDP (current US$)" 0 30000 []
        = Ok (d, g') /\
        Z.of_nat (length (points d)) = (30000 - 0 + 1)%Z).
Proof.
  assert (get_sample_data (F:=float) (G:=list float) "GDP (current US$)" 0 30000 []
          = Raise OverflowError) as Hraise by (by vm_compute).
  split; [lia|]. split; [done|].
  intros (d & g' & Hd & _). rewrite Hraise in Hd. discriminate.
Qed.

(** The replayed source keeps its uniform draws within the bounds, over exact
    arithmetic. *)
Lemma tape_uniform_within_bounds : uniform_within_bounds (F:=Q) (G:=list Q).
Proof.
  intros low high tape Hlh. apply Q_fgeb_true in Hlh.
  destruct tape as [|x tape]; simpl.
  - split; apply Qle_bool_iff; [apply Qle_refl | done].
  - destruct (Qle_bool low x && Qle_bool x high) eqn:E.
    + by apply andb_true_iff in E.
    + split; apply Qle_bool_iff; [apply Qle_refl | done].
Qed.

Lemma raw_values_rule_witness :
  (exists values g',
      raw_values (F:=float) "GDP growth (annual %)" (range 2015 (2017 + 1))
                 [flit 2.5; flit 3.5; flit 3.0; flit 9.0]
      = Ok (values, g') /\
      drawn (normal (flit 3) (flit 1)) (length (range 2015 (2017 + 1)))
            [flit 2.5; flit 3.5; flit 3.0; flit 9.0] values g') /\
  (exists values g',
      raw_values (F:=float) "Inflation, consumer prices (annual %)" (range 2015 (2017 + 1))
                 [flit 2.5; flit 3.5; flit 3.0; flit 9.0]
      = Ok (values, g') /\
      drawn (normal (flit 2.5) (flit 0.8)) (length (range 2015 (2017 + 1)))
            [flit 2.5; flit 3.5; flit 3.0; flit 9.0] values g') /\
  (exists values,
      raw_values (F:=float) "GDP (current US$)" (range 2015 (2017 + 1))
                 [flit 2.5; flit 3.5; flit 3.0; flit 9.0]
      = Ok (values, [flit 2.5; flit 3.5; flit 3.0; flit 9.0])).
Proof.
  split; [|split].
  - apply (proj1 (raw_values_rule (F:=float) "GDP growth (annual %)" 2015 2017 _)).
    split; by apply str_in_spec.
  - apply (proj1 (proj2 (raw_values_rule (F:=float)
                           "Inflation, consumer prices (annual %)" 2015 2017 _))).
    + intros [Hgdp _]. apply str_in_spec in Hgdp. vm_compute in Hgdp. discriminate.
    + by apply str_in_spec.
  - destruct (proj2 (proj2 (raw_values_rule (F:=float) (G:=list float)
                              "GDP (current US$)" 2015 2017
                              [flit 2.5; flit 3.5; flit 3.0; flit 9.0])))
      with (base := flit (F:=float) 1.0) as (_ & _ & Htotal).
    + intros [_ Hgrowth]. apply str_in_spec in Hgrowth. vm_compute in Hgrowth. discriminate.
    + intros Hinf. apply str_in_spec in Hinf. vm_compute in Hinf. discriminate.
    + rewrite decide_True; [done | by apply str_in_spec].
    + apply Htotal. intros i Hi. apply float_powers_finite.
      rewrite range_length in Hi. lia.
Defined.

Lemma smooth_recurrence_witness :
  exists out : list float,
    smooth [flit 3; flit 2; flit 4] = Ok out /\
    out = [ flit 3;
            fadd (fmul (flit 0.7) (flit 3)) (fmul (flit 0.3) (flit 2));
            fadd (fmul (flit 0.7) (fadd (fmul (flit 0.7) (flit 3)) (fmul (flit 0.3) (flit 2))))
                 (fmul (flit 0.3) (flit 4)) ].
Proof.
  destruct (smooth_recurrence (F:=float) [flit 3; flit 2; flit 4])
    as (out & Hout & _ & _ & _ & Hthree).
  exists out. split; [exact Hout | by apply Hthree].
Defined.

Lemma risk_classification_witness :
  classify (F:=Q) 7.5%Q
  = ("High Risk", "risk-high",
     "Economic conditions face significant headwinds. Policy intervention may be needed to stabilize growth and inflation.") /\
  classify (F:=Q) 5%Q
  = ("Medium Risk", "risk-medium",
     "Economic conditions show mixed signals with moderate risks. Careful monitoring recommended.") /\
  classify (F:=Q) 3.999%Q
  = ("Low Risk", "risk-low",
     "Economic conditions appear favorable with positive outlook for sustained growth and stability.").
Proof.
  destruct (proj1 risk_classification 7.5%Q) as (Hhigh & _ & _).
  destruct (proj1 risk_classification 5%Q) as (_ & Hmedium & _).
  destruct (proj1 risk_classification 3.999%Q) as (_ & _ & Hlow).
  split; [|split].
  - apply Hhigh. by vm_compute.
  - apply Hmedium. split; by vm_compute.
  - apply Hlow. by vm_compute.
Defined.

Lemma get_sample_data_points_witness :
  (2015 <= 2023)%Z /\
  exists d g',
    get_sample_data (F:=float) (G:=list float) "GDP (current US$)" 2015 2023 [] = Ok (d, g') /\
    Z.of_nat (length (points d)) = (2023 - 2015 + 1)%Z /\
    forall i : nat,
      (Z.of_nat i <= 2023 - 2015)%Z ->
      exists v, points d !! i = Some ((2015 + Z.of_nat i)%Z, v).
Proof.
  split; [lia|].
  apply (proj1 get_sample_data_points float (list float) _ _
                "GDP (current US$)" 2015%Z 2023%Z []).
  - lia.
  - intros _ i Hi. apply float_powers_finite. lia.
Defined.


Lemma risk_score_witness :
  fgeb (calculate_risk_score (F:=Q) (G:=list Q) ∅ [5.5%Q]).1 (flit 2) = true /\
  fgeb (flit 8) (calculate_risk_score (F:=Q) (G:=list Q) ∅ [5.5%Q]).1 = true.
Proof.
  apply (proj1 (risk_score_range_and_independence (F:=Q) (G:=list Q)
                  tape_uniform_within_bounds eq_refl)).
Defined.

Lemma classification_case_sensitive_witness :
  raw_values (F:=float) (G:=list float) "real gdp, inflation-adjusted" [2015%Z; 2016%Z] [flit 9]
  = (values ← level_values (flit 200.0) [2015%Z; 2016%Z]; Ok (values, [flit 9])).
Proof.
  apply (proj1 (classification_case_sensitive (F:=float) [2015%Z; 2016%Z] [flit 9])).
  - intros Hs. apply str_in_spec in Hs. vm_compute in Hs. discriminate.
  - intros Hs. apply str_in_spec in Hs. vm_compute in Hs. discriminate.
Defined.

Lemma get_sample_data_empty_witness :
  (2015 < 2020)%Z /\
  get_sample_data (F:=float) (G:=list float) "GDP growth (annual %)" 2020 2015 [flit 3]
  = Ok (mkDataFrame [] [], [flit 3]).
Proof.
  split; [lia|].
  apply (get_sample_data_empty (F:=float) "GDP growth (annual %)" 2020 2015 [flit 3]). lia.
Defined.

Lemma classify_deterministic_witness :
  risk_analysis (F:=float) (flit 4.5) = risk_analysis (F:=float) (flit 6.5) /\
  generate_outlook (F:=float) (flit 4.5) = generate_outlook (F:=float) (flit 6.5).
Proof.
  apply (proj2 (classify_deterministic (F:=float) (flit 4.5) (flit 6.5))); reflexivity.
Defined.


(** * Further properties *)

(** ** The country list when the request succeeds *)

Lemma neq_str_true (v : json) (s : string) : neq_str v s = true <-> v <> JStr s.
Proof.
  destruct v; simpl; try (split; [intros _; discriminate | done]).
  destruct (String.eqb_spec s0 s) as [->|Hne]; simpl.
  - split; [done | intros Hv; by destruct Hv].
  - split; [intros _ [= Hs]; by apply Hne | done].
Qed.

Lemma add_country_has_fields (acc : list country_row) (entry : json) (row : country_row) :
  has_fields entry row ->
  add_country acc entry
  = Ok (acc ++ List.filter (fun row => neq_str (c_region row) "Aggregates") [row]).
Proof.
  intros (Hid & Hname & region & Hregion & Hvalue).
  unfold add_country. rewrite Hregion. cbn [mbind result_bind].
  rewrite Hvalue. cbn [mbind result_bind List.filter].
  destruct (neq_str (c_region row) "Aggregates").
  - rewrite Hid. cbn [mbind result_bind]. rewrite Hname. cbn [mbind result_bind].
    by destruct row.
  - by rewrite app_nil_r.
Qed.

Lemma for_each_add_country_has_fields (entries : list json) (rows acc : list country_row) :
  Forall2 has_fields entries rows ->
  for_each add_country entries acc
  = Ok (acc ++ List.filter (fun row => neq_str (c_region row) "Aggregates") rows).
Proof.
  intros Hrows. revert acc.
  induction Hrows as [|entry row entries rows Hrow _ IH]; intros acc.
  - simpl. by rewrite app_nil_r.
  - cbn [for_each]. rewrite (add_country_has_fields acc entry row Hrow).
    cbn [mbind result_bind]. rewrite IH, <- app_assoc. f_equal. f_equal.
    simpl. by destruct (neq_str (c_region row) "Aggregates").
Qed.

(** X1.  When the payload is a list whose second element lists entries that
    each carry an id, a name and a region value, [get_countries] returns the
    rows of the entries whose region value is not "Aggregates", in the order
    of the listing, and nothing else; the first element and anything after the
    second are ignored. *)
Theorem get_countries_listing (meta : json) (rest entries : list json)
    (rows : list country_row) :
  Forall2 has_fields entries rows ->
  get_countries (Ok (JList (meta :: JList entries :: rest)))
  = List.filter (fun row => neq_str (c_region row) "Aggregates") rows.
Proof.
  intros Hrows. unfold get_countries, fetch_countries. simpl.
  by rewrite (for_each_add_country_has_fields entries rows [] Hrows).
Qed.

Lemma add_country_keeps (P : country_row -> Prop) (acc acc' : list country_row)
    (entry : json) :
  (forall row, neq_str (c_region row) "Aggregates" = true -> P row) ->
  add_country acc entry = Ok acc' -> Forall P acc -> Forall P acc'.
Proof.
  intros HP. unfold add_country.
  destruct (subscript_str entry "region") as [region|e]; simpl; [|done].
  destruct (subscript_str region "value") as [v|e]; simpl; [|done].
  destruct (neq_str v "Aggregates") eqn:Hv; [|by intros [= <-]].
  destruct (subscript_str entry "id") as [id|e]; simpl; [|done].
  destruct (subscript_str entry "name") as [name|e]; simpl; [|done].
  intros [= <-] Hacc. apply Forall_app. split; [done|].
  apply Forall_singleton. by apply HP.
Qed.

Lemma for_each_add_country_keeps (P : country_row -> Prop) (entries : list json)
    (acc acc' : list country_row) :
  (forall row, neq_str (c_region row) "Aggregates" = true -> P row) ->
  for_each add_country entries acc = Ok acc' -> Forall P acc -> Forall P acc'.
Proof.
  intros HP. revert acc. induction entries as [|entry entries IH]; intros acc.
  - by intros [= <-].
  - cbn [for_each]. destruct (add_country acc entry) as [acc1|e] eqn:H1; [|done].
    cbn [mbind result_bind]. intros Hrest Hacc.
    apply (IH acc1 Hrest). by apply (add_country_keeps P acc acc1 entry).
Qed.

(** X2.  Whatever the response, no row of the frame [get_countries] returns has
    the region "Aggregates": the loop leaves such entries out and the built-in
    frame has none. *)
Theorem get_countries_no_aggregates (response : result json) (row : country_row) :
  row ∈ get_countries response -> c_region row <> JStr "Aggregates".
Proof.
  intros Hin. apply neq_str_true. revert row Hin. apply Forall_forall.
  unfold get_countries.
  destruct (fetch_countries response) as [countries|e] eqn:Hfetch.
  - unfold fetch_countries in Hfetch.
    destruct response as [data|e]; simpl in Hfetch; [|done].
    destruct (subscript_int data 1) as [listing|e]; simpl in Hfetch; [|done].
    destruct (iterate listing) as [items|e]; simpl in Hfetch; [|done].
    by apply (for_each_add_country_keeps _ items [] countries).
  - by repeat constructor.
Qed.

Lemma add_country_aggregate (acc : list country_row) (entry : json) :
  is_aggregate entry -> add_country acc entry = Ok acc.
Proof.
  intros (region & Hregion & Hvalue). unfold add_country.
  rewrite Hregion. simpl. by rewrite Hvalue.
Qed.

(** X3.  A listing that holds aggregates only, or nothing, is no failure for
    [get_countries]: it returns the frame without rows, not the built-in one,
    even when the aggregates lack an id or a name; and the first thing the
    dashboard does with that frame, reading its region column, raises
    [KeyError]. *)
Theorem get_countries_only_aggregates (meta : json) (rest entries : list json) :
  Forall is_aggregate entries ->
  get_countries (Ok (JList (meta :: JList entries :: rest))) = [] /\
  region_column (get_countries (Ok (JList (meta :: JList entries :: rest))))
  = Raise KeyError.
Proof.
  intros Hagg.
  assert (get_countries (Ok (JList (meta :: JList entries :: rest))) = []) as ->; [|done].
  unfold get_countries, fetch_countries. simpl.
  assert (for_each add_country entries [] = Ok []) as ->; [|done].
  induction Hagg as [|entry entries Hentry _ IH]; [done|].
  cbn [for_each]. by rewrite (add_country_aggregate [] entry Hentry).
Qed.

(** A frame with at least one row has its region column, one cell per row:
    only the empty frame makes the dashboard's first lookup raise. *)
Lemma region_column_rows (countries_df : list country_row) :
  countries_df <> [] ->
  exists regions,
    region_column countries_df = Ok regions /\
    length regions = length countries_df /\
    forall i row, countries_df !! i = Some row -> regions !! i = Some (c_region row).
Proof.
  intros Hne. destruct countries_df as [|row0 rows]; [done|].
  exists (map c_region (row0 :: rows)). split; [done|]. split.
  - by rewrite length_map.
  - intros i row Hi. by rewrite list_lookup_fmap, Hi.
Qed.

(** ** When the series generator raises *)

Lemma traverse_Raise {A B} (f : A -> result B) (l : list A) (e : exn) :
  traverse f l = Raise e <->
  exists (i : nat) (x : A),
    l !! i = Some x /\ f x = Raise e /\
    forall (j : nat) (y : A), (j < i)%nat -> l !! j = Some y -> is_Ok (f y) = true.
Proof.
  induction l as [|x0 l IH]; simpl.
  - split; [done | by intros (i & x & Hi & _)].
  - destruct (f x0) as [y0|e0] eqn:Hx0; simpl.
    + assert ((exists (i : nat) (x : A),
                  (x0 :: l) !! i = Some x /\ f x = Raise e /\
                  forall (j : nat) (y : A),
                    (j < i)%nat -> (x0 :: l) !! j = Some y -> is_Ok (f y) = true)
              <-> traverse f l = Raise e) as ->.
      { rewrite IH. split.
        - intros (i & x & Hi & Hx & Hbefore).
          destruct i as [|i]; [simpl in Hi; congruence|].
          exists i, x. split; [done|]. split; [done|].
          intros j y Hj Hy. apply (Hbefore (S j) y); [lia | done].
        - intros (i & x & Hi & Hx & Hbefore).
          exists (S i), x. split; [done|]. split; [done|].
          intros [|j] y Hj Hy; simpl in Hy.
          + injection Hy as <-. by rewrite Hx0.
          + apply (Hbefore j y); [lia | done]. }
      by destruct (traverse f l).
    + split.
      * intros [= ->]. exists 0%nat, x0. split; [done|]. split; [done|]. intros j y Hj. lia.
      * intros (i & x & Hi & Hx & Hbefore). destruct i as [|i].
        -- simpl in Hi. congruence.
        -- specialize (Hbefore 0%nat x0 ltac:(lia) eq_refl). by rewrite Hx0 in Hbefore.
Qed.

Section GeneratorErrors.
Context {F G : Type} `{PyFloat F} `{RandomSource F G}.

Lemma level_values_Raise (base : F) (years : list Z) (e : exn) :
  level_values base years = Raise e <->
  exists i : nat,
    (i < length years)%nat /\
    fpow (fadd (flit 1) (flit 0.03)) (N.of_nat i) = Raise e /\
    forall j : nat, (j < i)%nat ->
                    is_Ok (fpow (fadd (flit 1) (flit 0.03)) (N.of_nat j)) = true.
Proof.
  unfold level_values. rewrite traverse_Raise. split.
  - intros (i & [k y] & Hi & Hk & Hbefore).
    rewrite enumerate_lookup in Hi.
    destruct (years !! i) as [y'|] eqn:Hy; simpl in Hi; [|done].
    injection Hi as <- <-. exists i. split; [by eapply lookup_lt_Some|]. split.
    + simpl in Hk. by destruct (fpow _ (N.of_nat i)) as [p|e']; simpl in Hk; [|congruence].
    + intros j Hj.
      destruct (lookup_lt_is_Some_2 years j) as [yj Hyj].
      { apply lookup_lt_Some in Hy. lia. }
      specialize (Hbefore j (N.of_nat j, yj) Hj).
      rewrite enumerate_lookup, Hyj in Hbefore. specialize (Hbefore eq_refl).
      simpl in Hbefore. by destruct (fpow _ (N.of_nat j)).
  - intros (i & Hi & Hk & Hbefore).
    destruct (lookup_lt_is_Some_2 years i Hi) as [y Hy].
    exists i, (N.of_nat i, y). split; [by rewrite enumerate_lookup, Hy|]. split.
    + simpl. by rewrite Hk.
    + intros j [k yj] Hj Hjl. rewrite enumerate_lookup in Hjl.
      destruct (years !! j) as [y'|]; simpl in Hjl; [|done].
      injection Hjl as <- <-. specialize (Hbefore j Hj). simpl.
      by destruct (fpow _ (N.of_nat j)).
Qed.

Lemma get_sample_data_Raise_raw (indicator : string) (start_year end_year : Z)
    (g : G) (e : exn) :
  get_sample_data indicator start_year end_year g = Raise e <->
  raw_values indicator (range start_year (end_year + 1)) g = Raise e.
Proof.
  destruct (raw_values indicator (range start_year (end_year + 1)) g)
    as [[values g']|e'] eqn:Hraw.
  - rewrite (get_sample_data_of_raw _ _ _ _ _ _ Hraw). split; intros; discriminate.
  - unfold get_sample_data. rewrite Hraw. simpl. split; congruence.
Qed.

Lemma get_sample_data_Ok_raw (indicator : string) (start_year end_year : Z)
    (g g' : G) (d : DataFrame F) :
  get_sample_data indicator start_year end_year g = Ok (d, g') ->
  exists values,
    raw_values indicator (range start_year (end_year + 1)) g = Ok (values, g') /\
    d = mkDataFrame (range start_year (end_year + 1)) (smoothed values).
Proof.
  destruct (raw_values indicator (range start_year (end_year + 1)) g)
    as [[values g1]|e'] eqn:Hraw.
  - rewrite (get_sample_data_of_raw _ _ _ _ _ _ Hraw). intros [= <- <-]. by exists values.
  - unfold get_sample_data. by rewrite Hraw.
Qed.

Lemma get_sample_data_Ok_covers (indicator : string) (start_year end_year : Z)
    (g g' : G) (d : DataFrame F) :
  get_sample_data indicator start_year end_year g = Ok (d, g') ->
  covers_range d start_year end_year.
Proof.
  intros Hd. apply get_sample_data_Ok_raw in Hd as (values & Hraw & ->).
  apply frame_covers_range.
  by rewrite smoothed_length, (raw_values_length _ _ _ _ _ Hraw).
Qed.

End GeneratorErrors.

Lemma raw_values_Raise {F G : Type} `{PyFloat F} `{RandomSource F G}
    (indicator : string) (years : list Z) (g : G) (e : exn) :
  raw_values indicator years g = Raise e <->
  uses_level_rule indicator /\
  exists i : nat,
    (i < length years)%nat /\
    fpow (fadd (flit 1) (flit 0.03)) (N.of_nat i) = Raise e /\
    forall j : nat, (j < i)%nat ->
                    is_Ok (fpow (fadd (flit 1) (flit 0.03)) (N.of_nat j)) = true.
Proof.
  destruct (decide (uses_level_rule indicator)) as [Hlevel|Hnot].
  - rewrite (raw_values_level _ _ _ Hlevel).
    set (base := if decide _ then _ else _).
    assert (forall r : result (list F),
               (values ← r; Ok (values, g)) = Raise e <-> r = Raise e) as ->.
    { intros [vs|e']; simpl; split; congruence. }
    rewrite level_values_Raise. tauto.
  - split; [|by intros [Hlevel _]].
    intros Hraise. exfalso. unfold raw_values in Hraise.
    destruct (str_in "GDP" indicator && str_in "growth" indicator) eqn:E1; [done|].
    destruct (str_in "Inflation" indicator) eqn:E2; [done|].
    apply Hnot. split.
    + intros [H1 H2]. apply str_in_spec in H1, H2. by rewrite H1, H2 in E1.
    + by apply str_in_false.
Qed.

(** X4.  The series generator raises exactly when the name selects the
    compounding curve and one of the powers [(1 + 0.03) ** i] for a position of
    the range raises: the exception is that of the first such power.  Names
    under the growth and inflation rules never raise, whatever the range. *)
Theorem get_sample_data_raises {F G : Type} `{PyFloat F} `{RandomSource F G}
    (indicator : string) (start_year end_year : Z) (g : G) (e : exn) :
  get_sample_data indicator start_year end_year g = Raise e <->
  uses_level_rule indicator /\
  exists i : nat,
    (Z.of_nat i <= end_year - start_year)%Z /\
    fpow (fadd (flit 1) (flit 0.03)) (N.of_nat i) = Raise e /\
    forall j : nat, (j < i)%nat ->
                    is_Ok (fpow (fadd (flit 1) (flit 0.03)) (N.of_nat j)) = true.
Proof.
  rewrite get_sample_data_Raise_raw, raw_values_Raise.
  assert (forall i : nat,
             (i < length (range start_year (end_year + 1)))%nat
             <-> (Z.of_nat i <= end_year - start_year)%Z) as Hlen.
  { intros i. rewrite range_length. lia. }
  split.
  - intros (Hlevel & i & Hi & Hrest). split; [done|]. exists i. by rewrite <- Hlen.
  - intros (Hlevel & i & Hi & Hrest). split; [done|]. exists i. by rewrite Hlen.
Qed.

(** X5.  In binary64 the series generator can only fail with [OverflowError],
    only for a name under the compounding curve, and only when the range spans
    more than 24001 years. *)
Theorem get_sample_data_float_raises {G : Type} `{RandomSource float G}
    (indicator : string) (start_year end_year : Z) (g : G) (e : exn) :
  get_sample_data (F:=float) indicator start_year end_year g = Raise e ->
  e = OverflowError /\ uses_level_rule indicator /\ (24000 < end_year - start_year)%Z.
Proof.
  intros Hraise.
  apply get_sample_data_Raise_raw, raw_values_Raise in Hraise
    as (Hlevel & i & Hi & Hpow & _).
  rewrite range_length in Hi.
  split; [|split; [done|]].
  - simpl in Hpow. unfold float_pow in Hpow.
    destruct (N.of_nat i); [done|].
    by destruct (_ && _); [injection Hpow as <-|].
  - destruct (decide (Z.of_nat i <= 24000)%Z) as [Hsmall|Hbig]; [|lia].
    pose proof (float_powers_finite i Hsmall) as Hok. by rewrite Hpow in Hok.
Qed.

(** X6.  Under the growth rule and under the inflation rule the generator
    returns for every range, empty or not, a frame with one point per year, and
    leaves the random source in the state reached after exactly one normal
    draw per year, with mean 3 and deviation 1 for growth and mean 2.5 and
    deviation 0.8 for inflation. *)
Theorem get_sample_data_random_rules {F G : Type} `{PyFloat F} `{RandomSource F G}
    (indicator : string) (start_year end_year : Z) (g : G) :
  (Substring "GDP" indicator /\ Substring "growth" indicator ->
   exists d,
     get_sample_data indicator start_year end_year g
     = Ok (d, state_after (normal (flit 3) (flit 1))
                          (Z.to_nat (end_year - start_year + 1)) g) /\
     covers_range d start_year end_year) /\
  (~ (Substring "GDP" indicator /\ Substring "growth" indicator) ->
   Substring "Inflation" indicator ->
   exists d,
     get_sample_data indicator start_year end_year g
     = Ok (d, state_after (normal (flit 2.5) (flit 0.8))
                          (Z.to_nat (end_year - start_year + 1)) g) /\
     covers_range d start_year end_year).
Proof.
  assert (length (range start_year (end_year + 1)) = Z.to_nat (end_year - start_year + 1))
    as Hlen by (rewrite range_length; lia).
  split.
  - intros [Hgdp Hgrowth].
    assert (raw_values indicator (range start_year (end_year + 1)) g
            = Ok (draws (normal (flit 3) (flit 1)) (range start_year (end_year + 1)) g))
      as Hraw.
    { unfold raw_values. apply str_in_spec in Hgdp, Hgrowth. by rewrite Hgdp, Hgrowth. }
    pose proof (draws_drawn (normal (flit 3) (flit 1)) (range start_year (end_year + 1)) g)
      as (_ & _ & Hstate).
    destruct (draws _ _ g) as [values g'] eqn:Hd. simpl in Hstate.
    pose proof (get_sample_data_of_raw _ _ _ _ _ _ Hraw) as Hget.
    eexists. rewrite <- Hlen, <- Hstate. split; [exact Hget|].
    by apply (get_sample_data_Ok_covers _ _ _ _ _ _ Hget).
  - intros Hng Hinf.
    assert (raw_values indicator (range start_year (end_year + 1)) g
            = Ok (draws (normal (flit 2.5) (flit 0.8)) (range start_year (end_year + 1)) g))
      as Hraw.
    { unfold raw_values.
      destruct (str_in "GDP" indicator && str_in "growth" indicator) eqn:E.
      { exfalso. apply Hng. apply andb_true_iff in E as [E1 E2].
        split; by apply str_in_spec. }
      apply str_in_spec in Hinf. by rewrite Hinf. }
    pose proof (draws_drawn (normal (flit 2.5) (flit 0.8))
                  (range start_year (end_year + 1)) g) as (_ & _ & Hstate).
    destruct (draws _ _ g) as [values g'] eqn:Hd. simpl in Hstate.
    pose proof (get_sample_data_of_raw _ _ _ _ _ _ Hraw) as Hget.
    eexists. rewrite <- Hlen, <- Hstate. split; [exact Hget|].
    by apply (get_sample_data_Ok_covers _ _ _ _ _ _ Hget).
Qed.

(** ** Shorter ranges give prefixes *)

Lemma traverse_take {A B} (f : A -> result B) (l : list A) (ys : list B) (n : nat) :
  traverse f l = Ok ys -> traverse f (take n l) = Ok (take n ys).
Proof.
  revert ys n. induction l as [|x l IH]; intros ys n; simpl.
  - intros [= <-]. by destruct n.
  - destruct (f x) as [y|e] eqn:Hx; simpl; [|done].
    destruct (traverse f l) as [ys'|e]; simpl; [|done].
    intros [= <-]. destruct n as [|n]; [done|].
    simpl. rewrite Hx. simpl. by rewrite (IH ys' n).
Qed.

Lemma enumerate_from_take {A} (k : N) (l : list A) (n : nat) :
  enumerate_from k (take n l) = take n (enumerate_from k l).
Proof.
  revert k n. induction l as [|x l IH]; intros k n; [by destruct n|].
  destruct n as [|n]; [done|]. simpl. by rewrite IH.
Qed.

Lemma range_from_take (lo : Z) (n m : nat) :
  (n <= m)%nat -> range_from lo n = take n (range_from lo m).
Proof.
  revert lo m. induction n as [|n IH]; intros lo m Hnm; [done|].
  destruct m as [|m]; [lia|]. simpl. f_equal. apply IH. lia.
Qed.

Lemma draws_take {F G A} (draw : G -> F * G) (l : list A) (g : G) (n : nat) :
  (draws draw (take n l) g).1 = take n (draws draw l g).1.
Proof.
  revert g n. induction l as [|a l IH]; intros g n; [by destruct n|].
  destruct n as [|n]; [done|]. simpl.
  destruct (draw g) as [x g1]. specialize (IH g1 n).
  destruct (draws draw (take n l) g1) as [xs g2].
  destruct (draws draw l g1) as [xs' g2']. simpl in *. by rewrite IH.
Qed.

Lemma zip_take {A B} (l : list A) (k : list B) (n : nat) :
  zip (take n l) (take n k) = take n (zip l k).
Proof.
  revert k n. induction l as [|x l IH]; intros k n; [by destruct n|].
  destruct n as [|n]; [done|]. destruct k as [|y k]; [done|].
  simpl. by rewrite IH.
Qed.

Section Prefixes.
Context {F G : Type} `{PyFloat F} `{RandomSource F G}.

Lemma smoothed_from_take (prev : F) (raw : list F) (n : nat) :
  smoothed_from prev (take n raw) = take n (smoothed_from prev raw).
Proof.
  revert prev n. induction raw as [|r raw IH]; intros prev n; [by destruct n|].
  destruct n as [|n]; [done|]. simpl. by rewrite IH.
Qed.

Lemma smoothed_take (raw : list F) (n : nat) :
  smoothed (take n raw) = take n (smoothed raw).
Proof.
  destruct raw as [|r0 raw]; [by destruct n|].
  destruct n as [|n]; [done|]. simpl. by rewrite smoothed_from_take.
Qed.

Lemma raw_values_take (indicator : string) (years : list Z) (g g' : G)
    (values : list F) (n : nat) :
  raw_values indicator years g = Ok (values, g') ->
  exists g'', raw_values indicator (take n years) g = Ok (take n values, g'').
Proof.
  unfold raw_values.
  destruct (str_in "GDP" indicator && str_in "growth" indicator).
  { intros [= Hd]. eexists. f_equal. apply injective_projections; [|done]. simpl.
    by rewrite draws_take, Hd. }
  destruct (str_in "Inflation" indicator).
  { intros [= Hd]. eexists. f_equal. apply injective_projections; [|done]. simpl.
    by rewrite draws_take, Hd. }
  destruct (level_values _ years) as [vs|e] eqn:Hl; simpl; [|done].
  intros [= <- <-]. exists g. unfold level_values, enumerate in *.
  rewrite enumerate_from_take. by rewrite (traverse_take _ _ vs n Hl).
Qed.

End Prefixes.

(** X7.  A smoothed value depends on the raw values up to its own position
    only: smoothing the first [n] raw values gives the first [n] values of the
    smoothed sequence, in every arithmetic. *)
Theorem smooth_prefix {F : Type} `{PyFloat F} (raw : list F) (n : nat) :
  exists out : list F,
    smooth raw = Ok out /\ smooth (take n raw) = Ok (take n out).
Proof.
  exists (smoothed raw). split; [apply smooth_smoothed|].
  by rewrite smooth_smoothed, smoothed_take.
Qed.

(** X8.  Ending the range earlier, from the same start year and the same state
    of the random source, gives the same points up to the earlier end: if the
    generator returns for the range up to [later_year], it returns for the
    range up to any [end_year <= later_year], and its points are the first
    points of the longer series. *)
Theorem get_sample_data_prefix {F G : Type} `{PyFloat F} `{RandomSource F G}
    (indicator : string) (start_year end_year later_year : Z) (g g' : G)
    (longer : DataFrame F) :
  (end_year <= later_year)%Z ->
  get_sample_data indicator start_year later_year g = Ok (longer, g') ->
  exists shorter g'',
    get_sample_data indicator start_year end_year g = Ok (shorter, g'') /\
    points shorter = take (Z.to_nat (end_year - start_year + 1)) (points longer).
Proof.
  intros Hle Hlonger.
  apply get_sample_data_Ok_raw in Hlonger as (values & Hraw & ->).
  set (n := Z.to_nat (end_year - start_year + 1)).
  assert (range start_year (end_year + 1) = take n (range start_year (later_year + 1)))
    as Hrange.
  { unfold range. replace (Z.to_nat (end_year + 1 - start_year)) with n by lia.
    apply range_from_take. lia. }
  destruct (raw_values_take indicator _ g g' values n Hraw) as [g'' Hshort].
  rewrite <- Hrange in Hshort.
  exists (mkDataFrame (range start_year (end_year + 1)) (smoothed (take n values))), g''.
  split; [by apply get_sample_data_of_raw|].
  unfold points. simpl. by rewrite Hrange, smoothed_take, zip_take.
Qed.

(** ** The latest value and the key metrics *)

Lemma iloc_last_covers {F} (d : DataFrame F) (start_year end_year : Z) :
  covers_range d start_year end_year ->
  (start_year <= end_year)%Z ->
  exists v, iloc_last d = Ok (end_year, v) /\ latest_value d = Ok v.
Proof.
  intros [Hlen Hpts] Hle.
  destruct (Hpts (pred (Z.to_nat (end_year - start_year + 1)))) as [v Hv]; [lia|].
  exists v. unfold latest_value, iloc_last.
  rewrite last_lookup, Hlen, Hv.
  replace (start_year + Z.of_nat (pred (Z.to_nat (end_year - start_year + 1))))%Z
    with end_year by lia.
  done.
Qed.

Lemma iloc_last_empty {F} (d : DataFrame F) (start_year end_year : Z) :
  covers_range d start_year end_year ->
  (end_year < start_year)%Z ->
  iloc_last d = Raise IndexError /\ latest_value d = Raise IndexError.
Proof.
  intros [Hlen _] Hlt. unfold latest_value, iloc_last.
  destruct (points d) as [|p l]; [done|]. simpl in Hlen. lia.
Qed.

(** X9.  Of a series the generator returned, the row [iloc[-1]] is the point
    of [end_year] whenever the range is not empty, so the latest value shown is
    the value of the last year; on the series of an empty range
    ([end_year < start_year]) the same lookup raises [IndexError]. *)
Theorem latest_value_of_series {F G : Type} `{PyFloat F} `{RandomSource F G}
    (indicator : string) (start_year end_year : Z) (g g' : G) (d : DataFrame F) :
  get_sample_data indicator start_year end_year g = Ok (d, g') ->
  ((start_year <= end_year)%Z ->
   exists v, iloc_last d = Ok (end_year, v) /\ latest_value d = Ok v) /\
  ((end_year < start_year)%Z ->
   iloc_last d = Raise IndexError /\ latest_value d = Raise IndexError).
Proof.
  intros Hd. apply get_sample_data_Ok_covers in Hd. split.
  - by apply iloc_last_covers.
  - by apply iloc_last_empty.
Qed.

Section Loading.
Context {F G : Type} `{PyFloat F} `{RandomSource F G}.

(** The invariant of the loading loop: the keys are the names seen so far, and
    every stored frame covers the range. *)
Lemma load_loop (selected : list string) (start_year end_year : Z)
    (m : gmap string (DataFrame F)) (g : G) :
  (forall i : nat,
      (Z.of_nat i <= end_year - start_year)%Z ->
      is_Ok (fpow (fadd (flit 1) (flit 0.03)) (N.of_nat i)) = true) ->
  (forall indicator d, m !! indicator = Some d -> covers_range d start_year end_year) ->
  exists m' g',
    for_each (fun '(indicators_data, g) indicator =>
                '(sample_data, g') ← get_sample_data indicator start_year end_year g;
                Ok (<[indicator := sample_data]> indicators_data, g'))
             selected (m, g) = Ok (m', g') /\
    (forall indicator,
        is_Some (m' !! indicator) <-> indicator ∈ selected \/ is_Some (m !! indicator)) /\
    (forall indicator d, m' !! indicator = Some d -> covers_range d start_year end_year).
Proof.
  intros Hpow. revert m g.
  induction selected as [|ind selected IH]; intros m g Hm.
  - exists m, g. split; [done|]. split; [|done].
    intros indicator. rewrite elem_of_nil. tauto.
  - cbn [for_each].
    destruct (get_sample_data_returns ind start_year end_year g) as (d & g1 & Hd & Hcov).
    { intros _ i Hi. apply Hpow. lia. }
    rewrite Hd. cbn [mbind result_bind].
    destruct (IH (<[ind := d]> m) g1) as (m' & g' & Hloop & Hkeys & Hframes).
    { intros indicator d'. rewrite lookup_insert. case_decide.
      - by intros [= <-].
      - apply Hm. }
    exists m', g'. split; [done|]. split; [|done].
    intros indicator. rewrite Hkeys, elem_of_cons, lookup_insert.
    case_decide as Hcase.
    + subst. split; [intros _; by left; left | intros _; right; by eexists].
    + split.
      * intros [Hin|Hm']; [left; by right | by right].
      * intros [[->|Hin]|Hm']; [done | by left | by right].
Qed.

Lemma key_metrics_Ok (selected : list string) (start_year end_year : Z)
    (m : gmap string (DataFrame F)) :
  (start_year <= end_year)%Z ->
  (forall indicator, indicator ∈ selected ->
                     exists d, m !! indicator = Some d /\ covers_range d start_year end_year) ->
  exists metrics,
    key_metrics selected m = Ok metrics /\
    length metrics = length selected /\
    forall (i : nat) (indicator : string),
      selected !! i = Some indicator ->
      exists d v,
        m !! indicator = Some d /\
        iloc_last d = Ok (end_year, v) /\
        metrics !! i = Some (indicator, metric_display indicator, v).
Proof.
  intros Hle Hsel. unfold key_metrics.
  match goal with
  | |- context [traverse ?f selected] =>
      destruct (traverse_total f selected) as [metrics Hmetrics]
  end.
  { intros indicator Hin. destruct (Hsel indicator Hin) as (d & Hd & Hcov).
    destruct (iloc_last_covers d _ _ Hcov Hle) as (v & _ & Hlatest).
    unfold dict_getitem. rewrite Hd. cbn [mbind result_bind]. by rewrite Hlatest. }
  exists metrics. split; [exact Hmetrics|]. split.
  - by apply traverse_Ok_length in Hmetrics.
  - intros i indicator Hi.
    destruct (traverse_Ok_lookup _ _ _ i indicator Hmetrics Hi) as (y & Hy & Hyi).
    destruct (Hsel indicator) as (d & Hd & Hcov).
    { apply list_elem_of_lookup. by exists i. }
    destruct (iloc_last_covers d _ _ Hcov Hle) as (v & Hlast & Hlatest).
    exists d, v. split; [done|]. split; [done|].
    unfold dict_getitem in Hy. rewrite Hd in Hy. cbn [mbind result_bind] in Hy.
    rewrite Hlatest in Hy. cbn [mbind result_bind] in Hy. congruence.
Qed.

End Loading.

(** X10.  When no power of the range overflows, the loading loop returns a
    dict whose keys are exactly the selected indicator names and whose frames
    each hold one point per year; so no later [indicators_data[indicator]] on a
    selected name raises [KeyError]. *)
Theorem load_indicators_keys {F G : Type} `{PyFloat F} `{RandomSource F G}
    (selected : list string) (start_year end_year : Z) (g : G) :
  (forall i : nat,
      (Z.of_nat i <= end_year - start_year)%Z ->
      is_Ok (fpow (fadd (flit 1) (flit 0.03)) (N.of_nat i)) = true) ->
  exists indicators_data g',
    load_indicators selected start_year end_year g = Ok (indicators_data, g') /\
    (forall indicator,
        is_Some (indicators_data !! indicator) <-> indicator ∈ selected) /\
    (forall indicator,
        indicator ∈ selected ->
        exists d, dict_getitem indicators_data indicator = Ok d /\
                  covers_range d start_year end_year).
Proof.
  intros Hpow.
  destruct (load_loop selected start_year end_year ∅ g Hpow)
    as (m & g' & Hload & Hkeys & Hframes).
  { intros indicator d. by rewrite lookup_empty. }
  exists m, g'. split; [exact Hload|]. split.
  - intros indicator. rewrite Hkeys, lookup_empty, is_Some_alt. tauto.
  - intros indicator Hin.
    assert (is_Some (m !! indicator)) as [d Hd] by (apply Hkeys; by left).
    exists d. split; [|by eapply Hframes].
    unfold dict_getitem. by rewrite Hd.
Qed.

(** X11.  For the years the sliders allow, in binary64, whatever names are
    selected and whatever the random source: the loading loop and the
    key-metrics column raise nothing; every selected indicator gets a series of
    2 to 14 points, and its metric is the value of [end_year] with the
    rendering chosen from its name. *)
Theorem slider_ranges_render {G : Type} `{RandomSource float G}
    (selected : list string) (start_year end_year : Z) (g : G) :
  slider_range start_year end_year ->
  exists indicators_data g' metrics,
    load_indicators (F:=float) selected start_year end_year g = Ok (indicators_data, g') /\
    key_metrics selected indicators_data = Ok metrics /\
    length metrics = length selected /\
    forall (i : nat) (indicator : string),
      selected !! i = Some indicator ->
      exists d v,
        dict_getitem indicators_data indicator = Ok d /\
        (2 <= length (points d) <= 14)%nat /\
        iloc_last d = Ok (end_year, v) /\
        metrics !! i = Some (indicator, metric_display indicator, v).
Proof.
  intros [Hstart Hend].
  destruct (load_loop (F:=float) selected start_year end_year ∅ g)
    as (m & g' & Hload & Hkeys & Hframes).
  { intros i Hi. apply float_powers_finite. lia. }
  { intros indicator d. by rewrite lookup_empty. }
  destruct (key_metrics_Ok selected start_year end_year m) as (metrics & Hm & Hlen & Hrows).
  { lia. }
  { intros indicator Hin.
    assert (is_Some (m !! indicator)) as [d Hd] by (apply Hkeys; by left).
    exists d. split; [done | by eapply Hframes]. }
  exists m, g', metrics. split; [exact Hload|]. split; [exact Hm|]. split; [exact Hlen|].
  intros i indicator Hi.
  destruct (Hrows i indicator Hi) as (d & v & Hd & Hlast & Hmi).
  exists d, v. split; [unfold dict_getitem; by rewrite Hd|].
  split; [|done].
  destruct (Hframes indicator d Hd) as [Hpoints _]. lia.
Qed.

(** ** The rendering of a metric and the generation rule *)

Lemma lower_append (s t : string) :
  lower (String.append s t) = String.append (lower s) (lower t).
Proof.
  induction s as [|a s IH]; [done|].
  rewrite append_String. simpl. by rewrite IH, append_String.
Qed.

Lemma Substring_lower (needle hay : string) :
  Substring needle hay -> Substring (lower needle) (lower hay).
Proof.
  intros (pre & post & ->). exists (lower pre), (lower post).
  by rewrite !lower_append.
Qed.

Lemma display_cases (indicator : string) :
  (metric_display indicator = Percent <->
   Substring "growth" (lower indicator) \/ Substring "inflation" (lower indicator)) /\
  (metric_display indicator = Trillions <->
   ~ Substring "growth" (lower indicator) /\ ~ Substring "inflation" (lower indicator) /\
   Substring "gdp" (lower indicator)) /\
  (metric_display indicator = Plain <->
   ~ Substring "growth" (lower indicator) /\ ~ Substring "inflation" (lower indicator) /\
   ~ Substring "gdp" (lower indicator)).
Proof.
  unfold metric_display. rewrite <- !str_in_false, <- !str_in_spec.
  destruct (str_in "growth" (lower indicator)), (str_in "inflation" (lower indicator)),
    (str_in "gdp" (lower indicator)); simpl; intuition congruence.
Qed.

(** X12.  For an ASCII name, the rendering of the metric goes with the rule
    that generated the series in one direction only.  A series made of random
    draws (growth or inflation rule) is always rendered as a percentage.  A
    metric rendered in trillions comes from the compounding curve, and so does
    one rendered plain, which moreover has base 200.0.  The converse fails:
    "gdp growth" is rendered as a percentage although the compounding curve
    with base 200.0 generated it. *)
Theorem display_and_rule (indicator : string) :
  is_ascii indicator = true ->
  (~ uses_level_rule indicator -> metric_display indicator = Percent) /\
  (metric_display indicator = Trillions -> uses_level_rule indicator) /\
  (metric_display indicator = Plain ->
   uses_level_rule indicator /\ ~ Substring "GDP" indicator) /\
  (metric_display "gdp growth" = Percent /\ uses_level_rule "gdp growth").
Proof.
  intros _.
  destruct (display_cases indicator) as (Hpercent & Htrillions & Hplain).
  assert (Substring "growth" indicator -> Substring "growth" (lower indicator)) as Hgrowth
    by apply (Substring_lower "growth").
  assert (Substring "Inflation" indicator -> Substring "inflation" (lower indicator))
    as Hinflation by apply (Substring_lower "Inflation").
  assert (Substring "GDP" indicator -> Substring "gdp" (lower indicator)) as Hgdp
    by apply (Substring_lower "GDP").
  split; [|split; [|split]].
  - intros Hnot. apply Hpercent.
    destruct (decide (Substring "growth" indicator)) as [Hg|Hng]; [by left; apply Hgrowth|].
    destruct (decide (Substring "Inflation" indicator)) as [Hi|Hni];
      [by right; apply Hinflation|].
    exfalso. apply Hnot. split; [by intros [_ Hg] | done].
  - intros Ht. apply Htrillions in Ht as (Hng & Hni & _).
    split; [intros [_ Hg]; by apply Hng, Hgrowth | intros Hi; by apply Hni, Hinflation].
  - intros Hp. apply Hplain in Hp as (Hng & Hni & Hngdp).
    split; [split|].
    + intros [_ Hg]. by apply Hng, Hgrowth.
    + intros Hi. by apply Hni, Hinflation.
    + intros Hg. by apply Hngdp, Hgdp.
  - split; [done|]. split.
    + intros [Hg _]. apply str_in_spec in Hg. vm_compute in Hg. discriminate.
    + intros Hi. apply str_in_spec in Hi. vm_compute in Hi. discriminate.
Qed.

(** ** The three classifications *)

(** X13.  Label, tag and outlook sentence always belong to one band: whatever
    the score, [risk_analysis] and [generate_outlook] together give one of
    three results, High Risk with "risk-high" and the headwinds sentence,
    Medium Risk with "risk-medium" and the mixed-signals sentence, or Low Risk
    with "risk-low" and the favorable sentence.  In binary64 a NaN score,
    which compares false with both thresholds, is Low Risk, and an infinite
    score is High Risk. *)
Theorem classify_bands {F : Type} `{PyFloat F} (score : F) :
  (classify score
   = ("High Risk", "risk-high",
      "Economic conditions face significant headwinds. Policy intervention may be needed to stabilize growth and inflation.")
   \/ classify score
      = ("Medium Risk", "risk-medium",
         "Economic conditions show mixed signals with moderate risks. Careful monitoring recommended.")
   \/ classify score
      = ("Low Risk", "risk-low",
         "Economic conditions appear favorable with positive outlook for sustained growth and stability.")) /\
  risk_analysis PrimFloat.nan = ("Low Risk", "risk-low") /\
  risk_analysis PrimFloat.infinity = ("High Risk", "risk-high").
Proof.
  split; [|by vm_compute].
  destruct (fgeb score (flit 7)) eqn:H7.
  - left. by apply classify_high.
  - destruct (fgeb score (flit 4)) eqn:H4.
    + right; left. by apply classify_medium.
    + right; right. by apply classify_low.
Qed.

(** ** Concrete runs of the further properties *)

Lemma get_countries_listing_witness :
  get_countries
    (Ok (JList [ JNull;
                 JList [ JDict [ ("id", JStr "ABW"); ("name", JStr "Aruba");
                                 ("region", JDict [("value", JStr "Latin America")]) ];
                         JDict [ ("id", JStr "AFE"); ("name", JStr "Africa Eastern");
                                 ("region", JDict [("value", JStr "Aggregates")]) ];
                         JDict [ ("id", JStr "IND"); ("name", JStr "India");
                                 ("region", JDict [("value", JStr "South Asia")]) ] ] ]))
  = [ mkCountry (JStr "ABW") (JStr "Aruba") (JStr "Latin America");
      mkCountry (JStr "IND") (JStr "India") (JStr "South Asia") ].
Proof.
  apply (get_countries_listing JNull []
           _ [ mkCountry (JStr "ABW") (JStr "Aruba") (JStr "Latin America");
               mkCountry (JStr "AFE") (JStr "Africa Eastern") (JStr "Aggregates");
               mkCountry (JStr "IND") (JStr "India") (JStr "South Asia") ]).
  repeat constructor; simpl; eexists; split; reflexivity.
Defined.

Lemma get_countries_no_aggregates_witness :
  mkCountry (JStr "JPN") (JStr "Japan") (JStr "East Asia & Pacific")
    ∈ get_countries (Raise RequestException) /\
  JStr "East Asia & Pacific" <> JStr "Aggregates".
Proof.
  assert (mkCountry (JStr "JPN") (JStr "Japan") (JStr "East Asia & Pacific")
            ∈ get_countries (Raise RequestException)) as Hin.
  { apply list_elem_of_In. simpl. tauto. }
  split; [exact Hin|].
  exact (get_countries_no_aggregates (Raise RequestException) _ Hin).
Defined.

Lemma get_countries_only_aggregates_witness :
  get_countries
    (Ok (JList [ JNull; JList [ JDict [("region", JDict [("value", JStr "Aggregates")])] ] ]))
  = [] /\
  region_column
    (get_countries
       (Ok (JList [ JNull; JList [ JDict [("region", JDict [("value", JStr "Aggregates")])] ] ])))
  = Raise KeyError.
Proof.
  apply (get_countries_only_aggregates JNull []).
  repeat constructor. eexists. split; reflexivity.
Defined.

Lemma get_sample_data_raises_witness :
  uses_level_rule "GDP (current US$)" /\
  exists i : nat,
    (Z.of_nat i <= 30000 - 0)%Z /\
    fpow (F:=float) (fadd (flit 1) (flit 0.03)) (N.of_nat i) = Raise OverflowError /\
    forall j : nat, (j < i)%nat ->
                    is_Ok (fpow (F:=float) (fadd (flit 1) (flit 0.03)) (N.of_nat j)) = true.
Proof.
  apply (proj1 (get_sample_data_raises (F:=float) (G:=list float)
                  "GDP (current US$)" 0 30000 [] OverflowError)).
  by vm_compute.
Defined.

Lemma get_sample_data_float_raises_witness :
  OverflowError = OverflowError /\
  uses_level_rule "GDP (current US$)" /\ (24000 < 30000 - 0)%Z.
Proof.
  apply (get_sample_data_float_raises (G:=list float) "GDP (current US$)" 0 30000 []).
  by vm_compute.
Defined.

Lemma get_sample_data_random_rules_witness :
  exists d,
    get_sample_data (F:=float) (G:=list float) "GDP growth (annual %)" 2015 2017
                    [flit 2.5; flit 3.5; flit 3.0; flit 9.0]
    = Ok (d, state_after (normal (flit 3) (flit 1)) (Z.to_nat (2017 - 2015 + 1))
                         [flit 2.5; flit 3.5; flit 3.0; flit 9.0]) /\
    covers_range d 2015 2017.
Proof.
  apply (proj1 (get_sample_data_random_rules (F:=float) (G:=list float)
                  "GDP growth (annual %)" 2015 2017 _)).
  split; by apply str_in_spec.
Defined.

Lemma get_sample_data_prefix_witness :
  exists longer g' shorter g'',
    get_sample_data (F:=float) (G:=list float) "GDP growth (annual %)" 2015 2018
                    [flit 2.5; flit 3.5; flit 3.0; flit 9.0; flit 1.0]
    = Ok (longer, g') /\
    get_sample_data (F:=float) (G:=list float) "GDP growth (annual %)" 2015 2016
                    [flit 2.5; flit 3.5; flit 3.0; flit 9.0; flit 1.0]
    = Ok (shorter, g'') /\
    points shorter = take (Z.to_nat (2016 - 2015 + 1)) (points longer).
Proof.
  destruct (get_sample_data (F:=float) (G:=list float) "GDP growth (annual %)" 2015 2018
              [flit 2.5; flit 3.5; flit 3.0; flit 9.0; flit 1.0])
    as [[longer g']|e] eqn:Hlonger.
  - destruct (get_sample_data_prefix (F:=float) (G:=list float)
                "GDP growth (annual %)" 2015 2016 2018 _ g' longer ltac:(lia) Hlonger)
      as (shorter & g'' & Hshorter & Hpoints).
    by exists longer, g', shorter, g''.
  - vm_compute in Hlonger. discriminate.
Defined.

Lemma latest_value_of_series_witness :
  exists d g' v,
    get_sample_data (F:=float) (G:=list float) "GDP (current US$)" 2015 2023 [] = Ok (d, g') /\
    iloc_last d = Ok (2023%Z, v) /\ latest_value d = Ok v.
Proof.
  destruct (get_sample_data (F:=float) (G:=list float) "GDP (current US$)" 2015 2023 [])
    as [[d g']|e] eqn:Hd.
  - destruct (proj1 (latest_value_of_series (F:=float) (G:=list float)
                       "GDP (current US$)" 2015 2023 [] g' d Hd) ltac:(lia))
      as (v & Hlast & Hlatest).
    by exists d, g', v.
  - vm_compute in Hd. discriminate.
Defined.

Lemma load_indicators_keys_witness :
  exists indicators_data g',
    load_indicators (F:=float) (G:=list float)
                    ["GDP (current US$)"; "GDP growth (annual %)"] 2015 2023 []
    = Ok (indicators_data, g') /\
    (forall indicator,
        is_Some (indicators_data !! indicator)
        <-> indicator ∈ ["GDP (current US$)"; "GDP growth (annual %)"]) /\
    (forall indicator,
        indicator ∈ ["GDP (current US$)"; "GDP growth (annual %)"] ->
        exists d, dict_getitem indicators_data indicator = Ok d /\
                  covers_range d 2015 2023).
Proof.
  apply (load_indicators_keys (F:=float) (G:=list float)).
  intros i Hi. apply float_powers_finite. lia.
Defined.

Lemma slider_ranges_render_witness :
  slider_range 2015 2023 /\
  exists indicators_data g' metrics,
    load_indicators (F:=float) (G:=list float)
                    ["GDP (current US$)"; "GDP growth (annual %)"] 2015 2023 []
    = Ok (indicators_data, g') /\
    key_metrics ["GDP (current US$)"; "GDP growth (annual %)"] indicators_data = Ok metrics /\
    length metrics = 2%nat.
Proof.
  assert (slider_range 2015 2023) as Hslider by (unfold slider_range; lia).
  split; [exact Hslider|].
  destruct (slider_ranges_render (G:=list float)
              ["GDP (current US$)"; "GDP growth (annual %)"] 2015 2023 [] Hslider)
    as (indicators_data & g' & metrics & Hload & Hmetrics & Hlen & _).
  by exists indicators_data, g', metrics.
Defined.

Lemma display_and_rule_witness :
  is_ascii "Inflation, consumer prices (annual %)" = true /\
  (~ uses_level_rule "Inflation, consumer prices (annual %)" ->
   metric_display "Inflation, consumer prices (annual %)" = Percent).
Proof.
  split; [reflexivity|].
  apply (proj1 (display_and_rule "Inflation, consumer prices (annual %)" eq_refl)).
Defined.
